(** * The Evdev calibrator of xinput_calibrator (src/calibrator/Evdev.cpp)

    A shallow embedding of [CalibratorEvdev]: the device lookup, the property
    bridge [xinput_do_set_int_prop] with its byte buffer, [detect_axys],
    [apply], [finish_data], the three output routines, the constructor and the
    destructor.  The X server, the build and the host are the environment of
    the program; they are fields of the state the methods run in. *)

From Stdlib Require Import ZArith Bool String Ascii List DecimalString Lia.
Import ListNotations.

Local Open Scope string_scope.
Local Open Scope Z_scope.

(* ================================================================== *)
(** ** C integers, characters and text *)

Module C.

(** [int] is 32 bits wide; a conversion to [int] wraps. *)
Definition to_int (z : Z) : Z := (z + 2 ^ 31) mod 2 ^ 32 - 2 ^ 31.

(** Conversion to [unsigned char]. *)
Definition to_uchar (z : Z) : Z := z mod 2 ^ 8.

(** Conversion to an unsigned integer of [n] bytes ([unsigned long], XID,
    Atom), and the bits of a signed one. *)
Definition to_unsigned (n : nat) (z : Z) : Z := z mod 2 ^ (8 * Z.of_nat n).

(** A value converted to [bool]: anything but zero is true. *)
Definition truth (z : Z) : bool := negb (z =? 0).

Definition isdigit (c : ascii) : bool :=
  let n := nat_of_ascii c in (48 <=? n)%nat && (n <=? 57)%nat.

(** The loop shared by [xinput_parse_atom] and [xinput_find_device_info]:
    the flag starts True and drops to False at the first character that is
    not a digit. *)
Fixpoint all_digits (name : string) : bool :=
  match name with
  | EmptyString => true
  | String c rest => if isdigit c then all_digits rest else false
  end.

Fixpoint atoi_from (acc : Z) (s : string) : Z :=
  match s with
  | EmptyString => acc
  | String c rest =>
      if isdigit c
      then atoi_from (10 * acc + (Z.of_nat (nat_of_ascii c) - 48)) rest
      else acc
  end.

(** [atoi] on the strings the program gives it, which begin with a digit or
    are empty: the leading decimal number, 0 when there is none.  C leaves
    the result open when it does not fit an [int]; it is wrapped here. *)
Definition atoi (s : string) : Z := to_int (atoi_from 0 s).

(** printf's [%d] and [%i]. *)
Definition dec (z : Z) : string := NilZero.string_of_int (Z.to_int z).

Definition chr (n : nat) : string := String (ascii_of_nat n) EmptyString.
Definition nl : string := chr 10.
Definition tab : string := chr 9.
Definition dq : string := chr 34.

End C.

(* ================================================================== *)
(** ** The data record of the base class *)

(** Modelled from the spec: the header that declares [XYinfo] is not part of
    the sources; section 3 gives an axis as [{min, max}] and a calibration as
    [{x, y, swap_xy : bool}].  The source prints and stores [min] and [max]
    as [int]. *)
Record AxisInfo := mkAxis { min : Z; max : Z }.

Record XYinfo := mkXY { x : AxisInfo; y : AxisInfo; swap_xy : bool }.

(** [std::swap(axis.min, axis.max)] *)
Definition swap_min_max (a : AxisInfo) : AxisInfo :=
  {| min := max a; max := min a |}.

(** Modelled from the spec: the enumeration [OutputType] is declared in the
    missing base-class header.  [finish_data] names four enumerators and has
    a [default] branch; [OUTYPE_OTHER] stands for a value that reaches it. *)
Inductive OutputType :=
| OUTYPE_AUTO
| OUTYPE_XORGCONFD
| OUTYPE_HAL
| OUTYPE_XINPUT
| OUTYPE_OTHER.

(* ================================================================== *)
(** ** Xlib and the XInput extension, as far as the calibrator uses them *)

Definition Atom := Z.
Definition XID := Z.

(** Constants of X.h, Xatom.h and XI.h. *)
Definition None_atom : Atom := 0.
Definition XA_INTEGER : Atom := 19.
Definition XA_CARDINAL : Atom := 6.
Definition AnyPropertyType : Atom := 0.
Definition IsXExtensionDevice : Z := 2.

Record XDeviceInfo := mkDev { dev_id : XID; dev_name : string; dev_use : Z }.

(** What [XGetDeviceProperty] hands back on [Success]: the actual type, the
    actual format and the items ([nitems] is their number).  Items of format
    32 arrive as [long]s, the others as [char]s and [short]s. *)
Record XProperty := mkProp
  { act_type : Atom; act_format : Z; items : list Z }.

Definition nitems (p : XProperty) : Z := Z.of_nat (length (items p)).

(** The calls that leave the calibrator, in the order they are made: the Xlib
    requests, and every entry into the property bridge
    [xinput_do_set_int_prop] with the arguments it was given. *)
Inductive Call :=
| XOpenDisplay_call
| XCloseDisplay_call
| XListInputDevices_call
| XOpenDevice_call (id : XID)
| XCloseDevice_call
| XInternAtom_call (name : string)
| XGetDeviceProperty_call (property : Atom) (offset length : Z)
| XChangeDeviceProperty_call (property type : Atom) (format : Z)
    (elements : list Z)
| XSync_call
| set_int_prop_call (name : string) (format : Z) (argv : list Z).

(* ================================================================== *)
(** ** The state the methods run in *)

Record State := mkState
  { (* the build and the host *)
    HAVE_XI_PROP : bool;
    big_endian : bool;
    sizeof_long : nat;
    (* the [long]s that lie in memory behind the block of a reply *)
    heap_beyond : nat -> Z;
    (* the X server: what it answers *)
    x_display : bool;
    x_devices : list XDeviceInfo;
    x_openable : XID -> bool;
    x_intern : string -> Atom;
    x_property : Atom -> option XProperty;
    (* members inherited from Calibrator *)
    device_name : string;
    old_axys : XYinfo;
    orig_axys : XYinfo;
    output_type : OutputType;
    verbose : bool;
    sysfs_name : option string;
    xorgconfd_support : bool;
    (* effects *)
    calls : list Call;
    stdout : string;
    stderr : string;
    open_displays : nat;
    open_devices : nat }.

(** Modelled from the spec: [get_sysfs_name], [has_xorgconfd_support], the
    flag [verbose] and the members [device_name], [old_axys], [orig_axys] and
    [output_type] belong to the base class Calibrator, whose source is
    missing; section 6 says the hardware identifier may be unavailable, and
    section 4.5 that AUTO probes for a config-snippet directory.  Both are
    read from the state. *)
Definition get_sysfs_name (s : State) : option string := sysfs_name s.
Definition has_xorgconfd_support (s : State) : bool := xorgconfd_support s.

Definition set_old_axys (a : XYinfo) (s : State) : State :=
  mkState (HAVE_XI_PROP s) (big_endian s) (sizeof_long s) (heap_beyond s)
    (x_display s)
    (x_devices s) (x_openable s) (x_intern s) (x_property s) (device_name s)
    a (orig_axys s) (output_type s) (verbose s) (sysfs_name s)
    (xorgconfd_support s) (calls s) (stdout s) (stderr s) (open_displays s)
    (open_devices s).

Definition set_orig_axys (a : XYinfo) (s : State) : State :=
  mkState (HAVE_XI_PROP s) (big_endian s) (sizeof_long s) (heap_beyond s)
    (x_display s)
    (x_devices s) (x_openable s) (x_intern s) (x_property s) (device_name s)
    (old_axys s) a (output_type s) (verbose s) (sysfs_name s)
    (xorgconfd_support s) (calls s) (stdout s) (stderr s) (open_displays s)
    (open_devices s).

(** The member initialisers of the base-class constructor. *)
Definition init_members (name : string) (a : XYinfo) (o : OutputType)
    (s : State) : State :=
  mkState (HAVE_XI_PROP s) (big_endian s) (sizeof_long s) (heap_beyond s)
    (x_display s)
    (x_devices s) (x_openable s) (x_intern s) (x_property s) name
    a (orig_axys s) o (verbose s) (sysfs_name s)
    (xorgconfd_support s) (calls s) (stdout s) (stderr s) (open_displays s)
    (open_devices s).

Definition call (c : Call) (s : State) : State :=
  mkState (HAVE_XI_PROP s) (big_endian s) (sizeof_long s) (heap_beyond s)
    (x_display s)
    (x_devices s) (x_openable s) (x_intern s) (x_property s) (device_name s)
    (old_axys s) (orig_axys s) (output_type s) (verbose s) (sysfs_name s)
    (xorgconfd_support s) (calls s ++ [c]) (stdout s) (stderr s)
    (open_displays s) (open_devices s).

Definition printf (text : string) (s : State) : State :=
  mkState (HAVE_XI_PROP s) (big_endian s) (sizeof_long s) (heap_beyond s)
    (x_display s)
    (x_devices s) (x_openable s) (x_intern s) (x_property s) (device_name s)
    (old_axys s) (orig_axys s) (output_type s) (verbose s) (sysfs_name s)
    (xorgconfd_support s) (calls s) (stdout s ++ text) (stderr s)
    (open_displays s) (open_devices s).

Definition fprintf_stderr (text : string) (s : State) : State :=
  mkState (HAVE_XI_PROP s) (big_endian s) (sizeof_long s) (heap_beyond s)
    (x_display s)
    (x_devices s) (x_openable s) (x_intern s) (x_property s) (device_name s)
    (old_axys s) (orig_axys s) (output_type s) (verbose s) (sysfs_name s)
    (xorgconfd_support s) (calls s) (stdout s) (stderr s ++ text)
    (open_displays s) (open_devices s).

Definition set_handles (displays devices : nat) (s : State) : State :=
  mkState (HAVE_XI_PROP s) (big_endian s) (sizeof_long s) (heap_beyond s)
    (x_display s)
    (x_devices s) (x_openable s) (x_intern s) (x_property s) (device_name s)
    (old_axys s) (orig_axys s) (output_type s) (verbose s) (sysfs_name s)
    (xorgconfd_support s) (calls s) (stdout s) (stderr s) displays devices.

(** A method is a function from the state to a result and the next state. *)
Definition M (A : Type) : Type := State -> A * State.

Definition ret {A} (a : A) : M A := fun s => (a, s).

Definition bind {A B} (m : M A) (k : A -> M B) : M B :=
  fun s => let (a, s') := m s in k a s'.

(** A statement that has only an effect. *)
Definition exec (f : State -> State) : M unit := fun s => (tt, f s).

Definition get {A} (f : State -> A) : M A := fun s => (f s, s).

Declare Scope method_scope.
Delimit Scope method_scope with method.
Notation "v <- m ;; k" := (bind m (fun v => k))
  (at level 61, m at next level, right associativity) : method_scope.
Notation "m ;; k" := (bind m (fun _ => k))
  (at level 61, right associativity) : method_scope.
Notation "'when' b 'then' m" := (if b then m else ret tt)
  (at level 60, b at level 9, m at level 60) : method_scope.
Local Open Scope method_scope.

(* ================================================================== *)
(** ** The buffer of [xinput_do_set_int_prop]

    [data] is a union of a [char], a [short] and a [long] pointer to one
    block of [argc * sizeof(long)] zeroed bytes.  The block is a list of
    bytes; an element store through [data.s] or [data.l] writes 2 or
    [sizeof(long)] of them in the byte order of the host. *)

Module Buffer.

Definition calloc (count size : nat) : list Z := repeat 0 (count * size).

(** [data[i] = b] on the block; with [sizeof(long)] at least 2 every store
    of the loop falls inside it, and one outside would leave it as it is. *)
Fixpoint store_byte (i : nat) (b : Z) (data : list Z) : list Z :=
  match data, i with
  | [], _ => []
  | _ :: rest, O => b :: rest
  | c :: rest, S j => c :: store_byte j b rest
  end.

(** Byte [k] of [v], counted from the least significant one, in two's
    complement. *)
Definition byte_of (v : Z) (k : nat) : Z := (v / 2 ^ (8 * Z.of_nat k)) mod 256.

(** Where byte [k] of an object of [width] bytes lies inside the object. *)
Definition place (be : bool) (width k : nat) : nat :=
  if be then (width - 1 - k)%nat else k.

Definition store_object (be : bool) (width off : nat) (v : Z)
    (data : list Z) : list Z :=
  fold_left
    (fun d k => store_byte (off + place be width k) (byte_of v k) d)
    (seq 0 width) data.

(** [data.c[i] = v], [data.s[i] = v], [data.l[i] = v] *)
Definition store_c (i : nat) (v : Z) (data : list Z) : list Z :=
  store_byte i (C.to_uchar v) data.

Definition store_s (be : bool) (i : nat) (v : Z) (data : list Z) : list Z :=
  store_object be 2 (2 * i) v data.

Definition store_l (be : bool) (size : nat) (i : nat) (v : Z)
    (data : list Z) : list Z :=
  store_object be size (size * i) v data.

(** One pass through the [switch (format)] of the loop body.  [case 8] has
    no [break]: after the [char] store, control runs on into the [short]
    store of [case 16].  [None] is the [default] branch. *)
Definition switch_format (be : bool) (size : nat) (format : Z) (i : nat)
    (v : Z) (data : list Z) : option (list Z) :=
  if format =? 8 then Some (store_s be i v (store_c i v data))
  else if format =? 16 then Some (store_s be i v data)
  else if format =? 32 then Some (store_l be size i v data)
  else None.

(** [for (i = 0; i < argc; i++) switch (format) ...], from index [i] on. *)
Fixpoint fill (be : bool) (size : nat) (format : Z) (i : nat)
    (argv : list Z) (data : list Z) : option (list Z) :=
  match argv with
  | [] => Some data
  | v :: rest =>
      match switch_format be size format i v data with
      | Some data' => fill be size format (S i) rest data'
      | None => None
      end
  end.

(** The switch as section 9 of the spec asks for it, [case 8] ending in a
    [break] of its own, and the loop over it: the reference the code is
    compared with. *)
Definition switch_format_exclusive (be : bool) (size : nat) (format : Z)
    (i : nat) (v : Z) (data : list Z) : option (list Z) :=
  if format =? 8 then Some (store_c i v data)
  else if format =? 16 then Some (store_s be i v data)
  else if format =? 32 then Some (store_l be size i v data)
  else None.

Fixpoint fill_exclusive (be : bool) (size : nat) (format : Z) (i : nat)
    (argv : list Z) (data : list Z) : option (list Z) :=
  match argv with
  | [] => Some data
  | v :: rest =>
      match switch_format_exclusive be size format i v data with
      | Some data' => fill_exclusive be size format (S i) rest data'
      | None => None
      end
  end.

Definition encode_exclusive (be : bool) (size : nat) (format : Z)
    (argv : list Z) : option (list Z) :=
  fill_exclusive be size format 0 argv (calloc (length argv) size).

(** The block as it is handed to [XChangeDeviceProperty]. *)
Definition encode (be : bool) (size : nat) (format : Z) (argv : list Z)
    : option (list Z) :=
  fill be size format 0 argv (calloc (length argv) size).

(** How Xlib reads the block: the value of the [width]-byte object at byte
    offset [off]. *)
Definition load_object (be : bool) (width off : nat) (data : list Z) : Z :=
  fold_left
    (fun acc k =>
       acc + nth (off + place be width k) data 0 * 2 ^ (8 * Z.of_nat k))
    (seq 0 width) 0.

(** The [n] elements a request of the given format carries: [char]s,
    [short]s, or the low 32 bits of [long]s. *)
Definition elements (be : bool) (size : nat) (format : Z) (n : nat)
    (data : list Z) : list Z :=
  map (fun i =>
         if format =? 8 then nth i data 0
         else if format =? 16 then load_object be 2 (2 * i) data
         else if format =? 32
         then load_object be size (size * i) data mod 2 ^ 32
         else 0)
      (seq 0 n).

End Buffer.

(* ================================================================== *)
(** ** Xlib calls *)

(** [XInternAtom(display, name, False)]: the server's answer, [None_atom]
    when it has none. *)
Definition XInternAtom (name : string) : M Atom :=
  fun s => (x_intern s name, call (XInternAtom_call name) s).

(** The items a reply can carry: [length] counts 32-bit units. *)
Definition clip (length : Z) (p : XProperty) : XProperty :=
  {| act_type := act_type p;
     act_format := act_format p;
     items := if act_format p =? 0 then []
              else firstn (Z.to_nat (32 * length / act_format p)) (items p) |}.

(** [XGetDeviceProperty(display, dev, property, offset, length, False,
    AnyPropertyType, ...)]: [Some] reply on [Success], [None] otherwise. *)
Definition XGetDeviceProperty (property : Atom) (offset length : Z)
    : M (option XProperty) :=
  fun s => (option_map (clip length) (x_property s property),
            call (XGetDeviceProperty_call property offset length) s).

(** [XChangeDeviceProperty(display, dev, property, type, format,
    PropModeReplace, data, nelements)].  The request is sent and not waited
    for; the program never learns whether the server accepted it.  What the
    server does with it is outside the model, and [x_property] stays as it
    is: no method reads a property again after it has written it, and a
    statement about a later run takes the server of that run as a state of
    its own. *)
Definition XChangeDeviceProperty (property type : Atom) (format : Z)
    (data : list Z) (nelements : nat) : M unit :=
  fun s =>
    (tt, call (XChangeDeviceProperty_call property type format
                 (Buffer.elements (big_endian s) (sizeof_long s) format
                    nelements data)) s).

Definition XSync : M unit := exec (call XSync_call).

Definition XOpenDisplay : M bool :=
  fun s =>
    let s' := call XOpenDisplay_call s in
    if x_display s
    then (true, set_handles (S (open_displays s')) (open_devices s') s')
    else (false, s').

Definition XCloseDisplay : M unit :=
  fun s =>
    let s' := call XCloseDisplay_call s in
    (tt, set_handles (pred (open_displays s')) (open_devices s') s').

Definition XOpenDevice (id : XID) : M bool :=
  fun s =>
    let s' := call (XOpenDevice_call id) s in
    if x_openable s id
    then (true, set_handles (open_displays s') (S (open_devices s')) s')
    else (false, s').

Definition XCloseDevice : M unit :=
  fun s =>
    let s' := call XCloseDevice_call s in
    (tt, set_handles (open_displays s') (pred (open_devices s')) s').

Definition XListInputDevices : M (list XDeviceInfo) :=
  fun s => (x_devices s, call XListInputDevices_call s).

(* ================================================================== *)
(** ** CalibratorEvdev: atoms, devices and the property bridge *)

(** A name made of digits only is taken as the number of the atom; any other
    name is interned. *)
Definition xinput_parse_atom (name : string) : M Atom :=
  if C.all_digits name
  then size <- get sizeof_long ;; ret (C.to_unsigned size (C.atoi name))
  else XInternAtom name.

(** The condition of the [if] in the device loop. *)
Definition device_matches (only_extended is_id : bool) (id : XID)
    (name : string) (d : XDeviceInfo) : bool :=
  (negb only_extended || (IsXExtensionDevice <=? dev_use d))
  && ((negb is_id && String.eqb (dev_name d) name)
      || (is_id && (dev_id d =? id))).

(** The device loop, with [found] as it stands on entry.  The result is the
    pointer returned and whether the warning was printed: a second match
    leaves the loop at once with NULL. *)
Fixpoint find_loop (matches : XDeviceInfo -> bool) (devices : list XDeviceInfo)
    (found : option XDeviceInfo) : option XDeviceInfo * bool :=
  match devices with
  | [] => (found, false)
  | d :: rest =>
      if matches d
      then match found with
           | Some _ => (None, true)
           | None => find_loop matches rest (Some d)
           end
      else find_loop matches rest found
  end.

Definition multiple_devices_warning (name : string) : string :=
  "Warning: There are multiple devices named " ++ C.dq ++ name ++ C.dq ++ "."
  ++ C.nl ++ "To ensure the correct one is selected, please use "
  ++ "the device ID instead." ++ C.nl ++ C.nl.

Definition xinput_find_device_info (name : string) (only_extended : bool)
    : M (option XDeviceInfo) :=
  size <- get sizeof_long ;;
  let is_id := C.all_digits name in
  let id := if is_id then C.to_unsigned size (C.atoi name)
            else C.to_unsigned size (-1) in
  devices <- XListInputDevices ;;
  let (found, warned) :=
    find_loop (device_matches only_extended is_id id name) devices None in
  when warned then exec (fprintf_stderr (multiple_devices_warning name)) ;;
  ret found.

(** Set an integer property on X.  [argc] is the length of [argv]. *)
Definition xinput_do_set_int_prop (name : string) (format : Z)
    (argv : list Z) : M bool :=
  exec (call (set_int_prop_call name format argv)) ;;
  have_xi_prop <- get HAVE_XI_PROP ;;
  if negb have_xi_prop then ret false else
  if Z.of_nat (length argv) <? 1 then
    exec (fprintf_stderr
            ("Wrong usage of xinput_do_set_prop, need at least 1 arguments"
             ++ C.nl)) ;;
    ret false
  else
  prop <- xinput_parse_atom name ;;
  if prop =? None_atom then
    exec (fprintf_stderr ("invalid property " ++ name ++ C.nl)) ;;
    ret false
  else
  probed <- (if format =? 0 then
               reply <- XGetDeviceProperty prop 0 0 ;;
               match reply with
               | None =>
                   exec (fprintf_stderr
                           ("failed to get property type and format for "
                            ++ name ++ C.nl)) ;;
                   ret None
               | Some p => ret (Some (act_format p))
               end
             else ret (Some format)) ;;
  match probed with
  | None => ret false
  | Some format =>
      be <- get big_endian ;;
      size <- get sizeof_long ;;
      match Buffer.encode be size format argv with
      | None =>
          exec (fprintf_stderr
                  ("unexpected size for property " ++ name ++ C.nl)) ;;
          ret false
      | Some data =>
          XChangeDeviceProperty prop XA_INTEGER format data (length argv) ;;
          ret true
      end
  end.

(* ================================================================== *)
(** ** CalibratorEvdev: the three property writes and [apply] *)

Definition set_swapxy (swap_xy : Z) : M bool :=
  exec (printf (C.tab ++ "Swapping X and Y axis..." ++ C.nl)) ;;
  r <- xinput_do_set_int_prop "Evdev Axes Swap" 8 [swap_xy] ;;
  v <- get verbose ;;
  when v then
    exec (printf
            (if r
             then "DEBUG: Successfully set swapped X and Y axes = "
                  ++ C.dec swap_xy ++ "." ++ C.nl
             else "DEBUG: Failed to set swap X and Y axes." ++ C.nl)) ;;
  ret r.

Definition set_invert_xy (invert_x invert_y : Z) : M bool :=
  exec (printf (C.tab ++ "Inverting X and/or Y axis..." ++ C.nl)) ;;
  r <- xinput_do_set_int_prop "Evdev Axis Inversion" 8 [invert_x; invert_y] ;;
  v <- get verbose ;;
  when v then
    exec (printf
            (if r
             then "DEBUG: Successfully set invert axis X=" ++ C.dec invert_x
                  ++ ", Y=" ++ C.dec invert_y ++ "." ++ C.nl
             else "DEBUG: Failed to set axis inversion." ++ C.nl)) ;;
  ret r.

Definition set_calibration (new_axys : XYinfo) : M bool :=
  exec (printf
          (C.tab ++ "Setting calibration data: "
           ++ C.dec (min (x new_axys)) ++ ", " ++ C.dec (max (x new_axys))
           ++ ", " ++ C.dec (min (y new_axys)) ++ ", "
           ++ C.dec (max (y new_axys)) ++ C.nl)) ;;
  r <- xinput_do_set_int_prop "Evdev Axis Calibration" 32
         [min (x new_axys); max (x new_axys);
          min (y new_axys); max (y new_axys)] ;;
  v <- get verbose ;;
  when v then
    exec (printf
            (if r
             then "DEBUG: Successfully applied axis calibration." ++ C.nl
             else "DEBUG: Failed to apply axis calibration." ++ C.nl)) ;;
  ret r.

Definition apply (new_axys : XYinfo) : M bool :=
  let success := true in
  exec (printf (C.nl ++ "Doing dynamic recalibration:" ++ C.nl)) ;;
  old <- get old_axys ;;
  (* Evdev Axes Swap *)
  success <- (if negb (Bool.eqb (swap_xy old) (swap_xy new_axys))
              then r <- set_swapxy (Z.b2z (swap_xy new_axys)) ;;
                   ret (success && r)
              else ret success) ;;
  (* Evdev Axis Inversion: the value returned is dropped *)
  set_invert_xy 0 0 ;;
  (* Evdev Axis Calibration *)
  r <- set_calibration new_axys ;;
  let success := success && r in
  XSync ;;
  ret success.

(* ================================================================== *)
(** ** CalibratorEvdev: the persistence outputs and [finish_data] *)

Definition placeholder_name : string := "!!Name_Of_TouchScreen!!".

Definition four_values (a : XYinfo) : string :=
  C.dec (min (x a)) ++ " " ++ C.dec (max (x a)) ++ " "
  ++ C.dec (min (y a)) ++ " " ++ C.dec (max (y a)).

Definition output_xorgconfd (new_axys : XYinfo) : M bool :=
  found <- get get_sysfs_name ;;
  let not_sysfs_name := match found with None => true | Some _ => false end in
  let sysfs_name :=
    match found with None => placeholder_name | Some n => n end in
  (* xorg.conf.d snippet *)
  exec (printf ("  copy the snippet below into "
                ++ "'/etc/X11/xorg.conf.d/99-calibration.conf'" ++ C.nl)) ;;
  exec (printf ("Section " ++ C.dq ++ "InputClass" ++ C.dq ++ C.nl)) ;;
  exec (printf (C.tab ++ "Identifier" ++ C.tab
                ++ C.dq ++ "calibration" ++ C.dq ++ C.nl)) ;;
  exec (printf (C.tab ++ "MatchProduct" ++ C.tab
                ++ C.dq ++ sysfs_name ++ C.dq ++ C.nl)) ;;
  exec (printf (C.tab ++ "Option" ++ C.tab ++ C.dq ++ "Calibration" ++ C.dq
                ++ C.tab ++ C.dq ++ four_values new_axys ++ C.dq ++ C.nl)) ;;
  exec (printf (C.tab ++ "Option" ++ C.tab ++ C.dq ++ "SwapAxes" ++ C.dq
                ++ C.tab ++ C.dq ++ C.dec (Z.b2z (swap_xy new_axys)) ++ C.dq
                ++ C.nl)) ;;
  exec (printf ("EndSection" ++ C.nl)) ;;
  when not_sysfs_name then
    exec (printf (C.nl ++ "Change '" ++ sysfs_name
                  ++ "' to your device's name in the snippet above."
                  ++ C.nl)) ;;
  ret true.

Definition output_hal (new_axys : XYinfo) : M bool :=
  found <- get get_sysfs_name ;;
  let not_sysfs_name := match found with None => true | Some _ => false end in
  let sysfs_name :=
    match found with None => placeholder_name | Some n => n end in
  (* HAL policy output *)
  exec (printf ("  copy the policy below into "
                ++ "'/etc/hal/fdi/policy/touchscreen.fdi'" ++ C.nl
                ++ "<match key=" ++ C.dq ++ "info.product" ++ C.dq
                ++ " contains=" ++ C.dq ++ sysfs_name ++ C.dq ++ ">" ++ C.nl
                ++ "  <merge key=" ++ C.dq ++ "input.x11_options.calibration"
                ++ C.dq ++ " type=" ++ C.dq ++ "string" ++ C.dq ++ ">"
                ++ four_values new_axys ++ "</merge>" ++ C.nl)) ;;
  exec (printf ("  <merge key=" ++ C.dq ++ "input.x11_options.swapaxes"
                ++ C.dq ++ " type=" ++ C.dq ++ "string" ++ C.dq ++ ">"
                ++ C.dec (Z.b2z (swap_xy new_axys)) ++ "</merge>" ++ C.nl)) ;;
  exec (printf ("</match>" ++ C.nl)) ;;
  when not_sysfs_name then
    exec (printf (C.nl ++ "Change '" ++ sysfs_name
                  ++ "' to your device's name in the config above." ++ C.nl)) ;;
  ret true.

Definition output_xinput (new_axys : XYinfo) : M bool :=
  name <- get device_name ;;
  (* create startup script *)
  exec (printf ("  Install the 'xinput' tool and copy the command(s) below "
                ++ "in a script that starts with your X session" ++ C.nl)) ;;
  exec (printf ("    xinput set-int-prop " ++ C.dq ++ name ++ C.dq ++ " "
                ++ C.dq ++ "Evdev Axis Calibration" ++ C.dq ++ " 32 "
                ++ four_values new_axys ++ C.nl)) ;;
  exec (printf ("    xinput set-int-prop " ++ C.dq ++ name ++ C.dq ++ " "
                ++ C.dq ++ "Evdev Axes Swap" ++ C.dq ++ " 8 "
                ++ C.dec (Z.b2z (swap_xy new_axys)) ++ C.nl)) ;;
  ret true.

Definition permanent_banner : string :=
  C.tab ++ "--> Making the calibration permanent <--" ++ C.nl.

(** Activate calibrated data and output it. *)
Definition finish_data (new_axys : XYinfo) : M bool :=
  let success := true in
  r <- apply new_axys ;;
  let success := success && r in
  exec (printf permanent_banner) ;;
  type <- get output_type ;;
  match type with
  | OUTYPE_AUTO =>
      (* xorg.conf.d or alternatively xinput commands *)
      xorgconfd <- get has_xorgconfd_support ;;
      if xorgconfd
      then r <- output_xorgconfd new_axys ;; ret (success && r)
      else r <- output_xinput new_axys ;; ret (success && r)
  | OUTYPE_XORGCONFD => r <- output_xorgconfd new_axys ;; ret (success && r)
  | OUTYPE_HAL => r <- output_hal new_axys ;; ret (success && r)
  | OUTYPE_XINPUT => r <- output_xinput new_axys ;; ret (success && r)
  | OUTYPE_OTHER =>
      exec (fprintf_stderr
              ("ERROR: Evdev Calibrator does not support the supplied "
               ++ "--output-type" ++ C.nl)) ;;
      ret false
  end.

(* ================================================================== *)
(** ** CalibratorEvdev: [detect_axys] *)

(** The [long] that [ptr] points to when it stands at [long] number [i] of
    the block [data].  The block holds the items of the reply and no more: a
    read behind it is not defined in C, and what it finds is whatever lies
    there, [beyond]. *)
Definition long_at (data : list Z) (beyond : nat -> Z) (i : nat) : Z :=
  nth i data (beyond (i - length data)%nat).

(** The four [long]s read through [ptr], whatever the number of items. *)
Definition read_calibration (old : XYinfo) (data : list Z)
    (beyond : nat -> Z) : XYinfo :=
  {| x := {| min := C.to_int (long_at data beyond 0);
             max := C.to_int (long_at data beyond 1) |};
     y := {| min := C.to_int (long_at data beyond 2);
             max := C.to_int (long_at data beyond 3) |};
     swap_xy := swap_xy old |}.

(** get "Evdev Axis Calibration" property *)
Definition detect_calibration : M unit :=
  property <- xinput_parse_atom "Evdev Axis Calibration" ;;
  reply <- XGetDeviceProperty property 0 1000 ;;
  match reply with
  | Some p =>
      when ((act_format p =? 32) && (act_type p =? XA_INTEGER)) then
        (if nitems p =? 0
         then
           v <- get verbose ;;
           when v then
             exec (printf ("DEBUG: Evdev Axis Calibration not set, "
                           ++ "setting to axis valuators to be sure."
                           ++ C.nl)) ;;
           (* No axis calibration set, set it to the default one *)
           old <- get old_axys ;;
           set_calibration old ;;
           ret tt
         else
           old <- get old_axys ;;
           beyond <- get heap_beyond ;;
           exec (set_old_axys (read_calibration old (items p) beyond)))
  | None => ret tt
  end.

(** get "Evdev Axes Swap" property *)
Definition detect_swap : M unit :=
  property <- xinput_parse_atom "Evdev Axes Swap" ;;
  reply <- XGetDeviceProperty property 0 1000 ;;
  match reply with
  | Some p =>
      when ((act_format p =? 8) && (act_type p =? XA_INTEGER)
            && (nitems p =? 1)) then
        (old <- get old_axys ;;
         let swap := C.truth (nth 0 (items p) 0) in
         exec (set_old_axys {| x := x old; y := y old; swap_xy := swap |}) ;;
         v <- get verbose ;;
         when v then
           exec (printf ("DEBUG: Read axes swap value of "
                         ++ C.dec (Z.b2z swap) ++ "." ++ C.nl)))
  | None => ret tt
  end.

(** get "Evdev Axes Inversion" property *)
Definition detect_inversion : M unit :=
  property <- xinput_parse_atom "Evdev Axis Inversion" ;;
  reply <- XGetDeviceProperty property 0 1000 ;;
  match reply with
  | Some p =>
      when ((act_format p =? 8) && (act_type p =? XA_INTEGER)
            && (nitems p =? 2)) then
        (let invert_x := C.truth (nth 0 (items p) 0) in
         let invert_y := C.truth (nth 1 (items p) 0) in
         v <- get verbose ;;
         when v then
           exec (printf ("DEBUG: Read InvertX=" ++ C.dec (Z.b2z invert_x)
                         ++ ", InvertY=" ++ C.dec (Z.b2z invert_y) ++ "."
                         ++ C.nl)) ;;
         when invert_x then
           (old <- get old_axys ;;
            exec (set_old_axys {| x := swap_min_max (x old); y := y old;
                                  swap_xy := swap_xy old |})) ;;
         when invert_y then
           (old <- get old_axys ;;
            exec (set_old_axys {| x := x old; y := swap_min_max (y old);
                                  swap_xy := swap_xy old |})))
  | None => ret tt
  end.

(** The method itself: its three commented parts, named above after their
    comments, then the summary line and the copy into [orig_axys]. *)
Definition detect_axys : M unit :=
  detect_calibration ;;
  detect_swap ;;
  detect_inversion ;;
  old <- get old_axys ;;
  exec (printf (C.tab ++ "current calibration values (from XInput): min_x="
                ++ C.dec (min (x old)) ++ ", max_x=" ++ C.dec (max (x old))
                ++ " and min_y=" ++ C.dec (min (y old)) ++ ", max_y="
                ++ C.dec (max (y old)) ++ C.nl)) ;;
  exec (set_orig_axys old).

(* ================================================================== *)
(** ** CalibratorEvdev: constructor and destructor *)

(** How the constructor is left: normally, with the id of the device that
    was opened, or by [throw WrongCalibratorException(what)]. *)
Inductive Constructed :=
| Ready (device_id : XID)
| Throw (what : string).

(** The thresholds and the geometry are only passed on to the base class and
    are left out. *)
Definition CalibratorEvdev (device_name0 : string) (axys0 : XYinfo)
    (device_id : XID) (output_type0 : OutputType) : M Constructed :=
  exec (init_members device_name0 axys0 output_type0) ;;
  (* init *)
  display <- XOpenDisplay ;;
  if negb display then ret (Throw "Evdev: Unable to connect to X server") else
  (* normaly, we already have the device id *)
  size <- get sizeof_long ;;
  looked_up <- (if device_id =? C.to_unsigned size (-1)
                then
                  name <- get device_name ;;
                  devInfo <- xinput_find_device_info name false ;;
                  match devInfo with
                  | None =>
                      XCloseDisplay ;;
                      ret (inl "Evdev: Unable to find device")
                  | Some d => ret (inr (dev_id d))
                  end
                else ret (inr device_id)) ;;
  match looked_up with
  | inl what => ret (Throw what)
  | inr device_id =>
      dev <- XOpenDevice device_id ;;
      if negb dev then
        XCloseDisplay ;;
        ret (Throw "Evdev: Unable to open device")
      else
      have_xi_prop <- get HAVE_XI_PROP ;;
      if negb have_xi_prop then
        ret (Throw ("Evdev: you need at least libXi 1.2 and inputproto 1.5 "
                    ++ "for dynamic recalibration of evdev."))
      else
      (* get "Evdev Axis Calibration" property *)
      property <- xinput_parse_atom "Evdev Axis Calibration" ;;
      reply <- XGetDeviceProperty property 0 1000 ;;
      match reply with
      | None =>
          XCloseDevice ;;
          XCloseDisplay ;;
          ret (Throw ("Evdev: " ++ C.dq ++ "Evdev Axis Calibration" ++ C.dq
                      ++ " property missing, not a (valid) evdev device"))
      | Some _ =>
          name <- get device_name ;;
          exec (printf ("Calibrating EVDEV driver for " ++ C.dq ++ name
                        ++ C.dq ++ " id=" ++ C.dec (C.to_int device_id)
                        ++ C.nl)) ;;
          ret (Ready device_id)
      end
  end.

(** Destructor *)
Definition CalibratorEvdev_destructor : M unit :=
  XCloseDevice ;;
  XCloseDisplay.

(* ================================================================== *)
(** ** Vocabulary of the statements *)

(** The state [s] after further calls and further text on the two streams;
    everything else is as in [s]. *)
Definition emits (s : State) (l : list Call) (o e : string) : State :=
  mkState (HAVE_XI_PROP s) (big_endian s) (sizeof_long s) (heap_beyond s)
    (x_display s)
    (x_devices s) (x_openable s) (x_intern s) (x_property s) (device_name s)
    (old_axys s) (orig_axys s) (output_type s) (verbose s) (sysfs_name s)
    (xorgconfd_support s) (calls s ++ l) (stdout s ++ o) (stderr s ++ e)
    (open_displays s) (open_devices s).

(** The property writes (entries into the bridge) and the flush, as opposed
    to the Xlib requests the bridge makes on its way. *)
Definition is_write (c : Call) : bool :=
  match c with set_int_prop_call _ _ _ => true | _ => false end.

Definition landmark (c : Call) : bool :=
  match c with
  | set_int_prop_call _ _ _ | XSync_call => true
  | _ => false
  end.

Definition is_open_device (c : Call) : bool :=
  match c with XOpenDevice_call _ => true | _ => false end.

(** The writes of [apply] in the order they are made. *)
Definition apply_writes (old new_axys : XYinfo) : list Call :=
  (if Bool.eqb (swap_xy old) (swap_xy new_axys) then []
   else [set_int_prop_call "Evdev Axes Swap" 8 [Z.b2z (swap_xy new_axys)]])
  ++ [set_int_prop_call "Evdev Axis Inversion" 8 [0; 0];
      set_int_prop_call "Evdev Axis Calibration" 32
        [min (x new_axys); max (x new_axys);
         min (y new_axys); max (y new_axys)];
      XSync_call].

(** The writes of a trace that name the property [name]. *)
Definition writes_to (name : string) (l : list Call) : list Call :=
  filter (fun c => match c with
                   | set_int_prop_call n _ _ => String.eqb n name
                   | _ => false
                   end) l.

(** The [XChangeDeviceProperty] requests a trace makes on behalf of the
    property [name]: those that follow an entry into the bridge for [name],
    up to the next entry.  [inside] tells whether the trace starts within
    such an entry. *)
Fixpoint requests_from (inside : bool) (name : string) (l : list Call)
    : list Call :=
  match l with
  | [] => []
  | set_int_prop_call n _ _ :: rest =>
      requests_from (String.eqb n name) name rest
  | XChangeDeviceProperty_call property type format elements :: rest =>
      if inside
      then XChangeDeviceProperty_call property type format elements
           :: requests_from inside name rest
      else requests_from inside name rest
  | _ :: rest => requests_from inside name rest
  end.

Definition requests_for (name : string) (l : list Call) : list Call :=
  requests_from false name l.

(** The name the two snippets are keyed by: the sysfs name, or the
    placeholder when there is none. *)
Definition snippet_key (s : State) : string :=
  match get_sysfs_name s with
  | None => placeholder_name
  | Some n => n
  end.

(** The id the device loop compares with: the number a name of digits
    stands for, [(XID)-1] otherwise. *)
Definition lookup_id (name : string) (s : State) : XID :=
  if C.all_digits name then C.to_unsigned (sizeof_long s) (C.atoi name)
  else C.to_unsigned (sizeof_long s) (-1).

(** The devices of the server that the loop of [xinput_find_device_info]
    (with [only_extended] False) takes for [name]. *)
Definition candidates (name : string) (s : State) : list XDeviceInfo :=
  filter (device_matches false (C.all_digits name) (lookup_id name s) name)
    (x_devices s).

(** What the calibrator holds after the inversion block, given what it held
    before and what the server answered. *)
Definition after_inversion (old : XYinfo) (reply : option XProperty) : XYinfo :=
  match reply with
  | Some p =>
      if (act_format p =? 8) && (act_type p =? XA_INTEGER) && (nitems p =? 2)
      then {| x := if C.truth (nth 0 (items p) 0)
                   then swap_min_max (x old) else x old;
              y := if C.truth (nth 1 (items p) 0)
                   then swap_min_max (y old) else y old;
              swap_xy := swap_xy old |}
      else old
  | None => old
  end.

(** The output types [finish_data] has a case for. *)
Definition supported (t : OutputType) : bool :=
  match t with OUTYPE_OTHER => false | _ => true end.

(** [needle] occurs in [text]. *)
Definition occurs (needle text : string) : Prop :=
  exists before after, text = before ++ needle ++ after.

(* ================================================================== *)
(** ** Concrete sessions

    A touchscreen with id 9 on a little-endian host with 8-byte [long]s, and
    variations of it. *)

Definition intern_all (name : string) : Atom :=
  if String.eqb name "Evdev Axis Calibration" then 270
  else if String.eqb name "Evdev Axes Swap" then 271
  else if String.eqb name "Evdev Axis Inversion" then 272
  else 300.

(** A server that cannot intern the inversion property. *)
Definition intern_but_inversion (name : string) : Atom :=
  if String.eqb name "Evdev Axis Inversion" then None_atom
  else intern_all name.

(** A server that cannot intern the calibration property. *)
Definition intern_but_calibration (name : string) : Atom :=
  if String.eqb name "Evdev Axis Calibration" then None_atom
  else intern_all name.

Definition properties (calibration inversion : XProperty) (a : Atom)
    : option XProperty :=
  if a =? 270 then Some calibration
  else if a =? 271 then Some (mkProp XA_INTEGER 8 [0])
  else if a =? 272 then Some inversion
  else Some (mkProp None_atom 0 []).

Definition full_range : XYinfo := mkXY (mkAxis 0 4095) (mkAxis 0 4095) false.

Definition target : XYinfo := mkXY (mkAxis 100 3900) (mkAxis 50 4000) true.

Definition session (have_xi_prop : bool) (devices : list XDeviceInfo)
    (intern : string -> Atom) (calibration inversion : XProperty)
    (type : OutputType) : State :=
  {| HAVE_XI_PROP := have_xi_prop;
     big_endian := false;
     sizeof_long := 8;
     heap_beyond := fun _ => 0;
     x_display := true;
     x_devices := devices;
     x_openable := fun _ => true;
     x_intern := intern;
     x_property := properties calibration inversion;
     device_name := "Touch";
     old_axys := full_range;
     orig_axys := full_range;
     output_type := type;
     verbose := false;
     sysfs_name := None;
     xorgconfd_support := true;
     calls := [];
     stdout := EmptyString;
     stderr := EmptyString;
     open_displays := 0;
     open_devices := 0 |}.

Definition one_touch : list XDeviceInfo :=
  [mkDev 2 "Virtual core pointer" 0; mkDev 9 "Touch" 4].

Definition two_touch : list XDeviceInfo :=
  [mkDev 9 "Touch" 4; mkDev 10 "Mouse" 4; mkDev 11 "Touch" 4].

Definition no_touch : list XDeviceInfo :=
  [mkDev 2 "Virtual core pointer" 0; mkDev 10 "Mouse" 4].

Definition calibration_set : XProperty :=
  mkProp XA_INTEGER 32 [0; 4095; 0; 4095].
Definition calibration_unset : XProperty := mkProp XA_INTEGER 32 [].
Definition inversion_off : XProperty := mkProp XA_INTEGER 8 [0; 0].
Definition inversion_x : XProperty := mkProp XA_INTEGER 8 [1; 0].
Definition inversion_as_cardinal : XProperty := mkProp XA_CARDINAL 8 [1; 1].

(** The same session on a big-endian host. *)
Definition on_big_endian (s : State) : State :=
  mkState (HAVE_XI_PROP s) true (sizeof_long s) (heap_beyond s)
    (x_display s)
    (x_devices s) (x_openable s) (x_intern s) (x_property s) (device_name s)
    (old_axys s) (orig_axys s) (output_type s) (verbose s) (sysfs_name s)
    (xorgconfd_support s) (calls s) (stdout s) (stderr s) (open_displays s)
    (open_devices s).

Definition touchscreen : State :=
  session true one_touch intern_all calibration_set inversion_off OUTYPE_AUTO.

(** [(XID)-1] with 8-byte [long]s. *)
Definition no_id : XID := C.to_unsigned 8 (-1).

(* ================================================================== *)
(** ** Vocabulary of the further statements *)

(** The requests that change a property, and those together with the
    flush. *)
Definition is_change (c : Call) : bool :=
  match c with XChangeDeviceProperty_call _ _ _ _ => true | _ => false end.

Definition is_sent (c : Call) : bool :=
  match c with
  | XChangeDeviceProperty_call _ _ _ _ | XSync_call => true
  | _ => false
  end.

Definition is_list_devices (c : Call) : bool :=
  match c with XListInputDevices_call => true | _ => false end.

(** The format the bridge encodes with: the one it is given, or with 0 the
    one the probe read reports, if that read succeeds. *)
Definition format_used (format : Z) (atom : Atom) (s : State) : option Z :=
  if format =? 0 then option_map act_format (x_property s atom)
  else Some format.

(** A build with property support and a server that interns the three
    property names. *)
Definition serves_properties (s : State) : Prop :=
  HAVE_XI_PROP s = true
  /\ x_intern s "Evdev Axes Swap" <> None_atom
  /\ x_intern s "Evdev Axis Inversion" <> None_atom
  /\ x_intern s "Evdev Axis Calibration" <> None_atom.

(** The range of an [int]. *)
Definition is_int (v : Z) : Prop := - 2 ^ 31 <= v < 2 ^ 31.

(** What the calibrator holds after the calibration block and after the
    swap block, given what it held before and what the server answered. *)
Definition after_calibration (beyond : nat -> Z) (old : XYinfo)
    (reply : option XProperty) : XYinfo :=
  match reply with
  | Some p =>
      if (act_format p =? 32) && (act_type p =? XA_INTEGER)
         && negb (nitems p =? 0)
      then read_calibration old (items p) beyond
      else old
  | None => old
  end.

Definition after_swap (old : XYinfo) (reply : option XProperty) : XYinfo :=
  match reply with
  | Some p =>
      if (act_format p =? 8) && (act_type p =? XA_INTEGER) && (nitems p =? 1)
      then {| x := x old; y := y old;
              swap_xy := C.truth (nth 0 (items p) 0) |}
      else old
  | None => old
  end.

(** The reply that makes [detect_axys] write: format 32, type INTEGER, no
    item. *)
Definition is_unset (reply : option XProperty) : bool :=
  match reply with
  | Some p => (act_format p =? 32) && (act_type p =? XA_INTEGER)
              && (nitems p =? 0)
  | None => false
  end.

(** The replies whose calibration block stays inside the reply: the block is
    not entered, or the reply has no item (the unset case), or it has the
    four items the block reads. *)
Definition reads_within (reply : option XProperty) : bool :=
  match reply with
  | Some p => negb ((act_format p =? 32) && (act_type p =? XA_INTEGER))
              || (nitems p =? 0) || (4 <=? nitems p)
  | None => true
  end.

(** The value [detect_axys] ends with, from the value it starts with, the
    replies to its three reads and what lies behind the first reply. *)
Definition detected (beyond : nat -> Z) (old : XYinfo)
    (calibration swap inversion : option XProperty) : XYinfo :=
  after_inversion (after_swap (after_calibration beyond old calibration) swap)
    inversion.

(** The three replies of the server to [detect_axys]. *)
Definition reply_to (name : string) (s : State) : option XProperty :=
  option_map (clip 1000) (x_property s (x_intern s name)).

(** The devices the loop of [xinput_find_device_info] takes for [name],
    with either value of [only_extended]. *)
Definition candidates_among (only_extended : bool) (name : string)
    (s : State) : list XDeviceInfo :=
  filter (device_matches only_extended (C.all_digits name)
            (lookup_id name s) name)
    (x_devices s).

(** The session with another list of devices, and with another output
    type. *)
Definition with_devices (devices : list XDeviceInfo) (s : State) : State :=
  mkState (HAVE_XI_PROP s) (big_endian s) (sizeof_long s) (heap_beyond s)
    (x_display s)
    devices (x_openable s) (x_intern s) (x_property s) (device_name s)
    (old_axys s) (orig_axys s) (output_type s) (verbose s) (sysfs_name s)
    (xorgconfd_support s) (calls s) (stdout s) (stderr s) (open_displays s)
    (open_devices s).

(* ================================================================== *)
(** * Properties *)

(** ** Bookkeeping of effects *)

Lemma append_nil_r (t : string) : t ++ EmptyString = t.
Proof. induction t as [|c t IH]; simpl; [reflexivity | now rewrite IH]. Qed.

Lemma append_assoc (a b c : string) : (a ++ b) ++ c = a ++ (b ++ c).
Proof. induction a as [|h a IH]; simpl; [reflexivity | now rewrite IH]. Qed.

#[local] Arguments String.append : simpl never.

Lemma emits_emits s l o e l' o' e' :
  emits (emits s l o e) l' o' e' = emits s (l ++ l') (o ++ o') (e ++ e').
Proof.
  unfold emits; simpl. now rewrite <- app_assoc, !append_assoc.
Qed.

Lemma call_emits c s : call c s = emits s [c] EmptyString EmptyString.
Proof. unfold call, emits. now rewrite !append_nil_r. Qed.

Lemma printf_emits t s : printf t s = emits s [] t EmptyString.
Proof. unfold printf, emits. now rewrite app_nil_r, append_nil_r. Qed.

Lemma fprintf_stderr_emits t s :
  fprintf_stderr t s = emits s [] EmptyString t.
Proof. unfold fprintf_stderr, emits. now rewrite app_nil_r, append_nil_r. Qed.

Create Rewrite HintDb effects.

#[local] Hint Rewrite call_emits printf_emits fprintf_stderr_emits
  emits_emits : effects.

Ltac run := unfold bind, exec, get, ret; simpl.
Ltac effects :=
  autorewrite with effects; rewrite ?app_nil_r, ?append_nil_r; simpl.

(** ** The buffer *)

Lemma switch_format_known be size format i v data :
  format = 8 \/ format = 16 \/ format = 32 ->
  exists data', Buffer.switch_format be size format i v data = Some data'.
Proof.
  intros [-> | [-> | ->]]; unfold Buffer.switch_format; simpl; eauto.
Qed.

Lemma fill_known be size format argv :
  format = 8 \/ format = 16 \/ format = 32 ->
  forall i data,
  exists data', Buffer.fill be size format i argv data = Some data'.
Proof.
  intros Hf. induction argv as [|v rest IH]; intros i data; simpl.
  - eauto.
  - destruct (switch_format_known be size format i v data Hf) as [d ->].
    apply IH.
Qed.

Lemma encode_known be size format argv :
  format = 8 \/ format = 16 \/ format = 32 ->
  exists data, Buffer.encode be size format argv = Some data.
Proof. intros Hf. apply fill_known, Hf. Qed.

(** ** The property bridge *)

(** An entry into the bridge is one write on the trace, followed by Xlib
    requests only; nothing but the trace and stderr changes. *)
Lemma xinput_do_set_int_prop_effects name format argv s :
  exists r xs e,
    xinput_do_set_int_prop name format argv s
    = (r, emits s (set_int_prop_call name format argv :: xs) EmptyString e)
    /\ filter landmark xs = [].
Proof.
  unfold xinput_do_set_int_prop, xinput_parse_atom, XInternAtom,
    XGetDeviceProperty, XChangeDeviceProperty.
  run.
  destruct (HAVE_XI_PROP s); simpl.
  2: { do 3 eexists. split; [effects; reflexivity | reflexivity]. }
  destruct (Z.of_nat (length argv) <? 1); simpl.
  { do 3 eexists. split; [effects; reflexivity | reflexivity]. }
  destruct (C.all_digits name); simpl.
  - destruct (C.to_unsigned (sizeof_long s) (C.atoi name) =? None_atom); simpl.
    { do 3 eexists. split; [effects; reflexivity | reflexivity]. }
    destruct (format =? 0); simpl.
    + destruct (x_property s _) as [p|]; simpl.
      * destruct (Buffer.encode _ _ _ _); simpl;
          do 3 eexists; (split; [effects; reflexivity | reflexivity]).
      * do 3 eexists. split; [effects; reflexivity | reflexivity].
    + destruct (Buffer.encode _ _ _ _); simpl;
        do 3 eexists; (split; [effects; reflexivity | reflexivity]).
  - destruct (x_intern s name =? None_atom); simpl.
    { do 3 eexists. split; [effects; reflexivity | reflexivity]. }
    destruct (format =? 0); simpl.
    + destruct (x_property s _) as [p|]; simpl.
      * destruct (Buffer.encode _ _ _ _); simpl;
          do 3 eexists; (split; [effects; reflexivity | reflexivity]).
      * do 3 eexists. split; [effects; reflexivity | reflexivity].
    + destruct (Buffer.encode _ _ _ _); simpl;
        do 3 eexists; (split; [effects; reflexivity | reflexivity]).
Qed.

Arguments xinput_do_set_int_prop : simpl never.

(** ** The three writes *)

Lemma set_swapxy_effects v s :
  exists r xs o e,
    set_swapxy v s
    = (r, emits s (set_int_prop_call "Evdev Axes Swap" 8 [v] :: xs) o e)
    /\ filter landmark xs = [].
Proof.
  unfold set_swapxy. run. rewrite printf_emits.
  match goal with
  | |- context [xinput_do_set_int_prop ?n ?f ?v ?st] =>
      destruct (xinput_do_set_int_prop_effects n f v st)
        as (r & xs & e & -> & Hxs)
  end.
  simpl. exists r, xs.
  destruct (verbose s); simpl; do 2 eexists;
    (split; [effects; reflexivity | exact Hxs]).
Qed.

Lemma set_invert_xy_effects vx vy s :
  exists r xs o e,
    set_invert_xy vx vy s
    = (r, emits s (set_int_prop_call "Evdev Axis Inversion" 8 [vx; vy] :: xs)
            o e)
    /\ filter landmark xs = [].
Proof.
  unfold set_invert_xy. run. rewrite printf_emits.
  match goal with
  | |- context [xinput_do_set_int_prop ?n ?f ?v ?st] =>
      destruct (xinput_do_set_int_prop_effects n f v st)
        as (r & xs & e & -> & Hxs)
  end.
  simpl. exists r, xs.
  destruct (verbose s); simpl; do 2 eexists;
    (split; [effects; reflexivity | exact Hxs]).
Qed.

Lemma set_calibration_effects a s :
  exists r xs o e,
    set_calibration a s
    = (r, emits s
            (set_int_prop_call "Evdev Axis Calibration" 32
               [min (x a); max (x a); min (y a); max (y a)] :: xs) o e)
    /\ filter landmark xs = [].
Proof.
  unfold set_calibration. run. rewrite printf_emits.
  match goal with
  | |- context [xinput_do_set_int_prop ?n ?f ?v ?st] =>
      destruct (xinput_do_set_int_prop_effects n f v st)
        as (r & xs & e & -> & Hxs)
  end.
  simpl. exists r, xs.
  destruct (verbose s); simpl; do 2 eexists;
    (split; [effects; reflexivity | exact Hxs]).
Qed.

Arguments set_swapxy : simpl never.
Arguments set_invert_xy : simpl never.
Arguments set_calibration : simpl never.

(** ** [apply] *)

Ltac filter_trace :=
  repeat (rewrite filter_app || (simpl filter));
  repeat match goal with
         | H : filter _ _ = [] |- _ => rewrite H
         end;
  simpl.

Ltac step_write :=
  match goal with
  | |- context [set_swapxy ?v ?st] =>
      let r := fresh "rs" in let H := fresh "Hs" in
      destruct (set_swapxy_effects v st) as (r & ? & ? & ? & -> & H)
  | |- context [set_invert_xy ?a ?b ?st] =>
      let r := fresh "ri" in let H := fresh "Hi" in
      destruct (set_invert_xy_effects a b st) as (r & ? & ? & ? & -> & H)
  | |- context [set_calibration ?a ?st] =>
      let r := fresh "rc" in let H := fresh "Hc" in
      destruct (set_calibration_effects a st) as (r & ? & ? & ? & -> & H)
  end.

Lemma apply_effects new_axys s :
  exists r l o e,
    apply new_axys s = (r, emits s l o e)
    /\ filter landmark l = apply_writes (old_axys s) new_axys
    /\ last l XSync_call = XSync_call.
Proof.
  unfold apply, apply_writes, XSync. run. rewrite printf_emits.
  destruct (Bool.eqb (swap_xy (old_axys s)) (swap_xy new_axys)); simpl;
    repeat step_write;
    do 4 eexists; (split; [effects; reflexivity |]); split.
  - filter_trace. reflexivity.
  - rewrite app_comm_cons. apply last_last.
  - filter_trace. reflexivity.
  - rewrite !app_comm_cons, !app_assoc. apply last_last.
Qed.

(** The value [apply] returns is the conjunction of what the swap write (when
    it is made) and the calibration write return; what the inversion write
    returns does not enter it. *)
Lemma apply_returns new_axys s :
  let s0 := printf (C.nl ++ "Doing dynamic recalibration:" ++ C.nl) s in
  let swap := if Bool.eqb (swap_xy (old_axys s)) (swap_xy new_axys)
              then (true, s0)
              else set_swapxy (Z.b2z (swap_xy new_axys)) s0 in
  let inversion := set_invert_xy 0 0 (snd swap) in
  let calibration := set_calibration new_axys (snd inversion) in
  fst (apply new_axys s) = fst swap && fst calibration.
Proof.
  unfold apply, XSync. run.
  destruct (Bool.eqb (swap_xy (old_axys s)) (swap_xy new_axys)); simpl.
  - destruct (set_invert_xy 0 0 _) as [ri si]; simpl.
    destruct (set_calibration new_axys si) as [rc sc]; reflexivity.
  - destruct (set_swapxy _ _) as [rs ss]; simpl.
    destruct (set_invert_xy 0 0 ss) as [ri si]; simpl.
    destruct (set_calibration new_axys si) as [rc sc]; reflexivity.
Qed.

(** C1: [apply] does not return the conjunction of all its sub-steps.  On a
    server that cannot intern the inversion property, with a swap flag to
    change, the swap write succeeds, the inversion write fails, the
    calibration write is still made and succeeds, and [apply] returns true. *)
Theorem apply_drops_inversion_result :
  let s := session true one_touch intern_but_inversion calibration_set
             inversion_off OUTYPE_AUTO in
  let s0 := printf (C.nl ++ "Doing dynamic recalibration:" ++ C.nl) s in
  let swap := set_swapxy (Z.b2z (swap_xy target)) s0 in
  let inversion := set_invert_xy 0 0 (snd swap) in
  let calibration := set_calibration target (snd inversion) in
  fst swap = true /\ fst inversion = false /\ fst calibration = true
  /\ fst (apply target s) = true
  /\ fst (apply target s) <> fst swap && fst inversion && fst calibration
  /\ filter is_write (calls (snd (apply target s)))
     = [set_int_prop_call "Evdev Axes Swap" 8 [1];
        set_int_prop_call "Evdev Axis Inversion" 8 [0; 0];
        set_int_prop_call "Evdev Axis Calibration" 32 [100; 3900; 50; 4000]].
Proof.
  vm_compute. repeat split; try reflexivity. discriminate.
Qed.

Lemma writes_to_landmark name l :
  writes_to name (filter landmark l) = writes_to name l.
Proof.
  unfold writes_to. induction l as [|c l IH]; simpl; [reflexivity |].
  destruct c; simpl; rewrite ?IH; reflexivity.
Qed.

(** ** The outputs and [finish_data] *)

Lemma occurs_refl n : occurs n n.
Proof. exists EmptyString, EmptyString. now rewrite append_nil_r. Qed.

Lemma occurs_app_l n a b : occurs n a -> occurs n (a ++ b).
Proof.
  intros (p & q & ->). exists p, (q ++ b). now rewrite !append_assoc.
Qed.

Lemma occurs_app_r n a b : occurs n b -> occurs n (a ++ b).
Proof.
  intros (p & q & ->). exists (a ++ p), q. now rewrite !append_assoc.
Qed.

Ltac find_occurrence :=
  solve [ apply occurs_refl
        | apply occurs_app_l; find_occurrence
        | apply occurs_app_r; find_occurrence ].

Lemma output_xorgconfd_effects new_axys s :
  exists text,
    output_xorgconfd new_axys s = (true, emits s [] text EmptyString)
    /\ occurs (four_values new_axys) text
    /\ occurs (C.dec (Z.b2z (swap_xy new_axys))) text
    /\ occurs (snippet_key s) text.
Proof.
  unfold output_xorgconfd, snippet_key, get_sysfs_name. run.
  destruct (sysfs_name s) as [n|]; simpl;
    eexists; (split; [effects; reflexivity |]);
    repeat split; find_occurrence.
Qed.

Lemma output_hal_effects new_axys s :
  exists text,
    output_hal new_axys s = (true, emits s [] text EmptyString)
    /\ occurs (four_values new_axys) text
    /\ occurs (C.dec (Z.b2z (swap_xy new_axys))) text
    /\ occurs (snippet_key s) text.
Proof.
  unfold output_hal, snippet_key, get_sysfs_name. run.
  destruct (sysfs_name s) as [n|]; simpl;
    eexists; (split; [effects; reflexivity |]);
    repeat split; find_occurrence.
Qed.

Lemma output_xinput_effects new_axys s :
  exists text,
    output_xinput new_axys s = (true, emits s [] text EmptyString)
    /\ occurs (four_values new_axys) text
    /\ occurs (C.dec (Z.b2z (swap_xy new_axys))) text
    /\ occurs (device_name s) text.
Proof.
  unfold output_xinput. run.
  eexists; (split; [effects; reflexivity |]);
    repeat split; find_occurrence.
Qed.

Opaque output_xorgconfd output_hal output_xinput.

(** [finish_data] on an output type it has a case for: [apply], the banner,
    then one output routine, with the text that routine prints. *)
Lemma finish_data_effects new_axys s :
  supported (output_type s) = true ->
  exists persist text,
    In persist [output_xorgconfd; output_hal; output_xinput]
    /\ finish_data new_axys s
       = (let (a, s1) := apply new_axys s in
          let (p, s2) := persist new_axys (printf permanent_banner s1) in
          (a && p, s2))
    /\ persist new_axys (printf permanent_banner (snd (apply new_axys s)))
       = (true,
          emits (printf permanent_banner (snd (apply new_axys s))) [] text
            EmptyString)
    /\ occurs (four_values new_axys) text
    /\ occurs (C.dec (Z.b2z (swap_xy new_axys))) text.
Proof.
  intros Hsup. unfold finish_data. run.
  destruct (apply_effects new_axys s) as (a & l & o & e & Ha & _).
  rewrite Ha. simpl.
  destruct (output_type s) eqn:Ht; try discriminate.
  - unfold has_xorgconfd_support. simpl.
    destruct (xorgconfd_support s).
    + destruct (output_xorgconfd_effects new_axys
                  (printf permanent_banner (emits s l o e)))
        as (text & Hp & H4 & Hs & _).
      exists output_xorgconfd, text. rewrite Hp. simpl. repeat split; auto 7.
    + destruct (output_xinput_effects new_axys
                  (printf permanent_banner (emits s l o e)))
        as (text & Hp & H4 & Hs & _).
      exists output_xinput, text. rewrite Hp. simpl. repeat split; auto 7.
  - destruct (output_xorgconfd_effects new_axys
                (printf permanent_banner (emits s l o e)))
      as (text & Hp & H4 & Hs & _).
    exists output_xorgconfd, text. rewrite Hp. simpl. repeat split; auto 7.
  - destruct (output_hal_effects new_axys
                (printf permanent_banner (emits s l o e)))
      as (text & Hp & H4 & Hs & _).
    exists output_hal, text. rewrite Hp. simpl. repeat split; auto 7.
  - destruct (output_xinput_effects new_axys
                (printf permanent_banner (emits s l o e)))
      as (text & Hp & H4 & Hs & _).
    exists output_xinput, text. rewrite Hp. simpl. repeat split; auto 7.
Qed.

Transparent output_xorgconfd output_hal output_xinput.


(** The end-to-end failure case: the calibration write fails after the swap
    write succeeded; [apply] and [finish_data] return false, and the policy
    snippet with the new values is printed all the same. *)
Example finish_data_after_failed_apply :
  let s := session true one_touch intern_but_calibration calibration_set
             inversion_off OUTYPE_HAL in
  fst (apply target s) = false
  /\ fst (finish_data target s) = false
  /\ stdout (snd (finish_data target s))
     = stdout (snd (apply target s)) ++ permanent_banner
       ++ "  copy the policy below into '/etc/hal/fdi/policy/touchscreen.fdi'"
       ++ C.nl ++ "<match key=" ++ C.dq ++ "info.product" ++ C.dq
       ++ " contains=" ++ C.dq ++ "!!Name_Of_TouchScreen!!" ++ C.dq ++ ">"
       ++ C.nl
       ++ "  <merge key=" ++ C.dq ++ "input.x11_options.calibration" ++ C.dq
       ++ " type=" ++ C.dq ++ "string" ++ C.dq ++ ">100 3900 50 4000</merge>"
       ++ C.nl
       ++ "  <merge key=" ++ C.dq ++ "input.x11_options.swapaxes" ++ C.dq
       ++ " type=" ++ C.dq ++ "string" ++ C.dq ++ ">1</merge>" ++ C.nl
       ++ "</match>" ++ C.nl ++ C.nl
       ++ "Change '!!Name_Of_TouchScreen!!' to your device's name in the "
       ++ "config above." ++ C.nl.
Proof. vm_compute. repeat split. Qed.


(** C10: each of the three output routines returns true, also when there is
    no sysfs name and the snippet is keyed by the placeholder; so on an
    output type that names a strategy [finish_data] returns what [apply]
    returns. *)
Theorem outputs_always_succeed new_axys s :
  supported (output_type s) = true ->
  (forall s', fst (output_xorgconfd new_axys s') = true
              /\ fst (output_hal new_axys s') = true
              /\ fst (output_xinput new_axys s') = true)
  /\ (exists text,
        stdout (snd (output_xorgconfd new_axys s)) = stdout s ++ text
        /\ occurs (snippet_key s) text)
  /\ (exists text,
        stdout (snd (output_hal new_axys s)) = stdout s ++ text
        /\ occurs (snippet_key s) text)
  /\ fst (finish_data new_axys s) = fst (apply new_axys s).
Proof.
  intros Hsup. split; [| split; [| split]].
  - intros s'.
    destruct (output_xorgconfd_effects new_axys s') as (? & -> & _).
    destruct (output_hal_effects new_axys s') as (? & -> & _).
    destruct (output_xinput_effects new_axys s') as (? & -> & _).
    auto.
  - destruct (output_xorgconfd_effects new_axys s) as (t & -> & _ & _ & Hk).
    exists t. auto.
  - destruct (output_hal_effects new_axys s) as (t & -> & _ & _ & Hk).
    exists t. auto.
  - destruct (finish_data_effects new_axys s Hsup)
      as (persist & text & _ & -> & Hp & _).
    destruct (apply new_axys s) as [a s1]. simpl in *.
    rewrite Hp. simpl. apply andb_true_r.
Qed.

Lemma outputs_always_succeed_witness :
  snippet_key touchscreen = placeholder_name
  /\ fst (finish_data target touchscreen) = fst (apply target touchscreen).
Proof.
  split; [reflexivity |].
  apply (outputs_always_succeed target touchscreen). reflexivity.
Defined.

(** ** Device lookup *)

Lemma find_loop_filter matches devices found :
  find_loop matches devices found
  = match found, filter matches devices with
    | None, [] => (None, false)
    | None, [d] => (Some d, false)
    | None, _ :: _ :: _ => (None, true)
    | Some f, [] => (Some f, false)
    | Some _, _ :: _ => (None, true)
    end.
Proof.
  revert found. induction devices as [|d rest IH]; intros found; simpl.
  - destruct found; reflexivity.
  - destruct (matches d); [| apply IH].
    destruct found as [f|]; [reflexivity |].
    rewrite IH. destruct (filter matches rest); reflexivity.
Qed.

Lemma xinput_find_device_info_effects name s :
  xinput_find_device_info name false s
  = match candidates name s with
    | [] => (None, call XListInputDevices_call s)
    | [d] => (Some d, call XListInputDevices_call s)
    | _ :: _ :: _ =>
        (None, fprintf_stderr (multiple_devices_warning name)
                 (call XListInputDevices_call s))
    end.
Proof.
  unfold xinput_find_device_info, XListInputDevices, candidates, lookup_id.
  run. rewrite find_loop_filter.
  destruct (filter _ (x_devices s)) as [|d [|d' rest]]; reflexivity.
Qed.

Lemma device_matches_by is_id id name d :
  device_matches false is_id id name d
  = if is_id then dev_id d =? id else String.eqb (dev_name d) name.
Proof.
  unfold device_matches. destruct is_id; simpl; [reflexivity |].
  apply orb_false_r.
Qed.

Arguments xinput_find_device_info : simpl never.

(** C5 (as the code has it): a name of digits only is looked up by the
    number it stands for and a device name is never compared with it; any
    other name is looked up by equality with the device name.  Without a
    device id the constructor opens the one device the lookup gives; when
    the lookup gives none, because no device or because several devices
    match, the constructor throws "Evdev: Unable to find device" in both
    cases, closes the display and opens no device.  The two cases differ
    only by the warning on stderr. *)
Theorem device_lookup name axys0 type s :
  x_display s = true ->
  let start :=
    CalibratorEvdev name axys0 (C.to_unsigned (sizeof_long s) (-1)) type s in
  (forall d,
      device_matches false (C.all_digits name) (lookup_id name s) name d
      = if C.all_digits name
        then dev_id d =? C.to_unsigned (sizeof_long s) (C.atoi name)
        else String.eqb (dev_name d) name)
  /\ match candidates name s with
     | [d] =>
         fst (xinput_find_device_info name false s) = Some d
         /\ filter is_open_device (calls (snd start))
            = (filter is_open_device (calls s)
               ++ [XOpenDevice_call (dev_id d)])%list
     | none_or_several =>
         fst (xinput_find_device_info name false s) = None
         /\ fst start = Throw "Evdev: Unable to find device"
         /\ filter is_open_device (calls (snd start))
            = filter is_open_device (calls s)
         /\ open_devices (snd start) = open_devices s
         /\ open_displays (snd start) = open_displays s
         /\ stderr (snd start)
            = stderr s ++ match none_or_several with
                          | [] => EmptyString
                          | _ => multiple_devices_warning name
                          end
     end.
Proof.
  intros Hdisplay start. split.
  - intros d. rewrite device_matches_by. unfold lookup_id.
    destruct (C.all_digits name); reflexivity.
  - subst start. rewrite xinput_find_device_info_effects.
    unfold CalibratorEvdev, XOpenDisplay. run. rewrite Hdisplay. simpl.
    rewrite Z.eqb_refl. rewrite xinput_find_device_info_effects.
    unfold candidates, lookup_id. simpl.
    destruct (filter _ (x_devices s)) as [|d [|d' rest]]; simpl.
    + rewrite !filter_app. simpl. rewrite !app_nil_r, append_nil_r.
      repeat split; reflexivity.
    + split; [reflexivity |].
      unfold XOpenDevice, XCloseDisplay, XCloseDevice, xinput_parse_atom,
        XInternAtom, XGetDeviceProperty.
      simpl.
      destruct (x_openable s (dev_id d)); simpl;
        [destruct (HAVE_XI_PROP s); simpl;
         [destruct (x_property s _); simpl |] |];
        rewrite !filter_app; simpl; rewrite ?app_nil_r; reflexivity.
    + rewrite !filter_app. simpl. rewrite !app_nil_r.
      repeat split; reflexivity.
Qed.

(** C5, the claim as stated fails: with two devices named "Touch" the
    constructor throws the very exception it throws when no device has that
    name, and the lookup returns NULL in both cases. *)
Lemma ambiguous_device_error_not_distinct :
  fst (CalibratorEvdev "Touch" full_range no_id OUTYPE_AUTO
         (session true two_touch intern_all calibration_set inversion_off
            OUTYPE_AUTO))
  = Throw "Evdev: Unable to find device"
  /\ fst (CalibratorEvdev "Touch" full_range no_id OUTYPE_AUTO
            (session true no_touch intern_all calibration_set inversion_off
               OUTYPE_AUTO))
     = Throw "Evdev: Unable to find device"
  /\ fst (xinput_find_device_info "Touch" false
            (session true two_touch intern_all calibration_set inversion_off
               OUTYPE_AUTO)) = None
  /\ fst (xinput_find_device_info "Touch" false
            (session true no_touch intern_all calibration_set inversion_off
               OUTYPE_AUTO)) = None.
Proof. vm_compute. repeat split. Qed.

Lemma device_lookup_witness :
  x_display (session true two_touch intern_all calibration_set inversion_off
               OUTYPE_AUTO) = true
  /\ fst (CalibratorEvdev "Touch" full_range no_id OUTYPE_AUTO
            (session true two_touch intern_all calibration_set inversion_off
               OUTYPE_AUTO))
     = Throw "Evdev: Unable to find device"
  /\ stderr (snd (CalibratorEvdev "Touch" full_range no_id OUTYPE_AUTO
                    (session true two_touch intern_all calibration_set
                       inversion_off OUTYPE_AUTO)))
     = multiple_devices_warning "Touch".
Proof.
  split; [reflexivity |].
  pose proof (device_lookup "Touch" full_range OUTYPE_AUTO
                (session true two_touch intern_all calibration_set
                   inversion_off OUTYPE_AUTO) eq_refl) as [_ H].
  destruct H as (_ & Hthrow & _ & _ & _ & Herr).
  split; [exact Hthrow | exact Herr].
Defined.

(** ** The 8-bit encoding *)

(** C6: the 8-bit path is not kept apart from the 16-bit one.  With format 8
    the loop also makes the [short] store of [case 16]: for the one value 257
    the block holds 1, 1 where the 8-bit store alone leaves 1, 0; and on a
    big-endian host the [short] store lands on the byte of element 0, so
    that the value 1 is sent as 0. *)
Theorem encode_8_runs_into_16 :
  Buffer.encode false 8 8 [257] = Some [1; 1; 0; 0; 0; 0; 0; 0]
  /\ Buffer.encode_exclusive false 8 8 [257] = Some [1; 0; 0; 0; 0; 0; 0; 0]
  /\ Buffer.encode true 8 8 [1] = Some [0; 1; 0; 0; 0; 0; 0; 0]
  /\ Buffer.encode_exclusive true 8 8 [1] = Some [1; 0; 0; 0; 0; 0; 0; 0]
  /\ calls (snd (set_swapxy 1 (on_big_endian touchscreen)))
     = [set_int_prop_call "Evdev Axes Swap" 8 [1];
        XInternAtom_call "Evdev Axes Swap";
        XChangeDeviceProperty_call 271 XA_INTEGER 8 [0]].
Proof. vm_compute. repeat split. Qed.

(** ** [detect_axys] *)

Lemma set_old_axys_id s : set_old_axys (old_axys s) s = s.
Proof. destruct s; reflexivity. Qed.

Lemma emits_set_old_axys a s l o e :
  emits (set_old_axys a s) l o e = set_old_axys a (emits s l o e).
Proof. reflexivity. Qed.

Lemma set_old_axys_twice a b s :
  set_old_axys a (set_old_axys b s) = set_old_axys a s.
Proof. reflexivity. Qed.

#[local] Hint Rewrite emits_set_old_axys set_old_axys_twice : effects.

Lemma XYinfo_eta a : {| x := x a; y := y a; swap_xy := swap_xy a |} = a.
Proof. destruct a; reflexivity. Qed.

Lemma set_old_axys_frame s l o e :
  set_old_axys (old_axys s) (emits s l o e) = emits s l o e.
Proof. now rewrite <- emits_set_old_axys, set_old_axys_id. Qed.

Lemma detect_inversion_effects s :
  exists o,
    detect_inversion s
    = (tt,
       set_old_axys
         (after_inversion (old_axys s)
            (option_map (clip 1000)
               (x_property s (x_intern s "Evdev Axis Inversion"))))
         (emits s
            [XInternAtom_call "Evdev Axis Inversion";
             XGetDeviceProperty_call (x_intern s "Evdev Axis Inversion") 0 1000]
            o EmptyString)).
Proof.
  unfold detect_inversion, xinput_parse_atom, XInternAtom, XGetDeviceProperty,
    after_inversion.
  run.
  destruct (x_property s (x_intern s "Evdev Axis Inversion")) as [p|]; simpl.
  2: { eexists. effects. rewrite set_old_axys_frame. reflexivity. }
  destruct ((act_format p =? 8) && (act_type p =? XA_INTEGER)
            && (nitems (clip 1000 p) =? 2)); simpl.
  2: { eexists. effects. rewrite set_old_axys_frame. reflexivity. }
  destruct (verbose s), (C.truth (nth 0 _ 0)), (C.truth (nth 1 _ 0)); simpl;
    eexists; effects;
    rewrite ?set_old_axys_twice, ?XYinfo_eta, ?set_old_axys_frame;
    reflexivity.
Qed.

Lemma detect_swap_effects s :
  exists a o,
    detect_swap s
    = (tt,
       set_old_axys a
         (emits s
            [XInternAtom_call "Evdev Axes Swap";
             XGetDeviceProperty_call (x_intern s "Evdev Axes Swap") 0 1000]
            o EmptyString))
    /\ x a = x (old_axys s) /\ y a = y (old_axys s).
Proof.
  unfold detect_swap, xinput_parse_atom, XInternAtom, XGetDeviceProperty.
  run.
  destruct (x_property s (x_intern s "Evdev Axes Swap")) as [p|]; simpl.
  2: { exists (old_axys s). eexists. effects.
       rewrite set_old_axys_frame. auto. }
  destruct ((act_format p =? 8) && (act_type p =? XA_INTEGER)
            && (nitems (clip 1000 p) =? 1)); simpl.
  2: { exists (old_axys s). eexists. effects.
       rewrite set_old_axys_frame. auto. }
  destruct (verbose s); simpl; do 2 eexists; effects;
    (split; [reflexivity | split; reflexivity]).
Qed.

Lemma detect_calibration_effects s :
  exists a l o e,
    detect_calibration s = (tt, set_old_axys a (emits s l o e))
    /\ swap_xy a = swap_xy (old_axys s).
Proof.
  unfold detect_calibration, xinput_parse_atom, XInternAtom,
    XGetDeviceProperty.
  run.
  destruct (x_property s (x_intern s "Evdev Axis Calibration")) as [p|]; simpl.
  2: { exists (old_axys s). do 3 eexists. effects.
       rewrite set_old_axys_frame. auto. }
  destruct ((act_format p =? 32) && (act_type p =? XA_INTEGER)); simpl.
  2: { exists (old_axys s). do 3 eexists. effects.
       rewrite set_old_axys_frame. auto. }
  destruct (nitems (clip 1000 p) =? 0); simpl.
  - destruct (verbose s); simpl; step_write; simpl;
      exists (old_axys s); do 3 eexists; effects;
      rewrite set_old_axys_frame; auto.
  - do 4 eexists. effects. auto.
Qed.

(** The unset case: the reply has format 32, type INTEGER and no item. *)
Lemma detect_calibration_unset s p :
  x_property s (x_intern s "Evdev Axis Calibration") = Some p ->
  act_format p = 32 -> act_type p = XA_INTEGER -> items p = [] ->
  exists xs o e,
    detect_calibration s
    = (tt,
       emits s
         (XInternAtom_call "Evdev Axis Calibration"
          :: XGetDeviceProperty_call (x_intern s "Evdev Axis Calibration")
               0 1000
          :: set_int_prop_call "Evdev Axis Calibration" 32
               [min (x (old_axys s)); max (x (old_axys s));
                min (y (old_axys s)); max (y (old_axys s))]
          :: xs) o e)
    /\ filter landmark xs = [].
Proof.
  intros Hp Hf Ht Hi.
  unfold detect_calibration, xinput_parse_atom, XInternAtom,
    XGetDeviceProperty.
  run. rewrite Hp. simpl. unfold nitems, clip. rewrite Hf, Ht, Hi. simpl.
  destruct (verbose s); simpl; step_write; simpl;
    do 3 eexists; (split; [effects; reflexivity | assumption]).
Qed.

Arguments detect_calibration : simpl never.
Arguments detect_swap : simpl never.
Arguments detect_inversion : simpl never.

(** [detect_axys] as a whole: the three blocks in order, the inversion
    folded into what the first two left, and the result stored twice. *)
Lemma detect_axys_effects s :
  exists a1 l1 o1 e1 a2 o,
    detect_calibration s = (tt, set_old_axys a1 (emits s l1 o1 e1))
    /\ old_axys (snd (detect_swap (snd (detect_calibration s)))) = a2
    /\ let final :=
         after_inversion a2
           (option_map (clip 1000)
              (x_property s (x_intern s "Evdev Axis Inversion"))) in
       detect_axys s
       = (tt,
          set_orig_axys final
            (set_old_axys final
               (emits s
                  (l1 ++ [XInternAtom_call "Evdev Axes Swap";
                          XGetDeviceProperty_call
                            (x_intern s "Evdev Axes Swap") 0 1000;
                          XInternAtom_call "Evdev Axis Inversion";
                          XGetDeviceProperty_call
                            (x_intern s "Evdev Axis Inversion") 0 1000])
                  o e1))).
Proof.
  destruct (detect_calibration_effects s) as (a1 & l1 & o1 & e1 & H1 & _).
  destruct (detect_swap_effects (set_old_axys a1 (emits s l1 o1 e1)))
    as (a2 & o2 & H2 & _).
  simpl in H2.
  match type of H2 with
  | _ = (tt, ?s2) =>
      destruct (detect_inversion_effects s2) as (o3 & H3)
  end.
  simpl in H3.
  exists a1, l1, o1, e1, a2. eexists.
  split; [exact H1 |]. rewrite H1. simpl. rewrite H2. simpl.
  split; [reflexivity |].
  unfold detect_axys. run. rewrite H1. simpl. rewrite H2. simpl.
  rewrite H3. simpl. effects. reflexivity.
Qed.

Lemma filter_is_write_landmark xs :
  filter landmark xs = [] -> filter is_write xs = [].
Proof.
  induction xs as [|c xs IH]; simpl; [reflexivity |].
  destruct c; simpl; try discriminate; exact IH.
Qed.

(** C8 (as the code has it): when the read of "Evdev Axis Inversion"
    succeeds with type INTEGER, format 8 and exactly two items, each axis
    whose item is not zero has the min and max left by the first two reads
    exchanged, and nothing else records the inversion; in every case the
    value then held is stored as [orig_axys] as well. *)
Theorem detect_axys_folds_inversion s p invert_x invert_y :
  x_property s (x_intern s "Evdev Axis Inversion") = Some p ->
  act_type p = XA_INTEGER -> act_format p = 8 ->
  items p = [invert_x; invert_y] ->
  let decoded := old_axys (snd (detect_swap (snd (detect_calibration s)))) in
  old_axys (snd (detect_axys s))
  = {| x := if C.truth invert_x then swap_min_max (x decoded) else x decoded;
       y := if C.truth invert_y then swap_min_max (y decoded) else y decoded;
       swap_xy := swap_xy decoded |}
  /\ orig_axys (snd (detect_axys s)) = old_axys (snd (detect_axys s)).
Proof.
  intros Hp Ht Hf Hi decoded.
  destruct (detect_axys_effects s)
    as (a1 & l1 & o1 & e1 & a2 & o' & _ & H2 & Hd).
  subst decoded. rewrite H2, Hd. simpl. split; [| reflexivity].
  rewrite Hp. unfold after_inversion, nitems, clip. simpl.
  rewrite Ht, Hf, Hi. reflexivity.
Qed.

Lemma detect_axys_folds_inversion_witness :
  old_axys (snd (detect_axys
                   (session true one_touch intern_all calibration_set
                      inversion_x OUTYPE_AUTO)))
  = mkXY (mkAxis 4095 0) (mkAxis 0 4095) false.
Proof.
  destruct (detect_axys_folds_inversion
              (session true one_touch intern_all calibration_set
                 inversion_x OUTYPE_AUTO)
              inversion_x 1 0 eq_refl eq_refl eq_refl eq_refl)
    as [H _].
  exact H.
Defined.

(** The stores of [detect_axys] agree in every case. *)
Lemma detect_axys_orig_is_old s :
  orig_axys (snd (detect_axys s)) = old_axys (snd (detect_axys s)).
Proof.
  destruct (detect_axys_effects s)
    as (a1 & l1 & o1 & e1 & a2 & o' & _ & _ & Hd).
  rewrite Hd. reflexivity.
Qed.

(** C8, the claim as stated fails: a reply with exactly two items of format
    8, both 1, whose type is CARDINAL and not INTEGER, leaves the decoded
    ranges as they are. *)
Lemma inversion_of_other_type_not_folded :
  let s := session true one_touch intern_all calibration_set
             inversion_as_cardinal OUTYPE_AUTO in
  fst (XGetDeviceProperty (x_intern s "Evdev Axis Inversion") 0 1000 s)
  = Some {| act_type := XA_CARDINAL; act_format := 8; items := [1; 1] |}
  /\ old_axys (snd (detect_swap (snd (detect_calibration s))))
     = mkXY (mkAxis 0 4095) (mkAxis 0 4095) false
  /\ old_axys (snd (detect_axys s))
     = mkXY (mkAxis 0 4095) (mkAxis 0 4095) false
  /\ old_axys (snd (detect_axys s))
     <> mkXY (mkAxis 4095 0) (mkAxis 4095 0) false.
Proof. vm_compute. repeat split. discriminate. Qed.

(** ** Construction and the two handles *)

(** In a build with [HAVE_XI_PROP], a constructor that throws has closed what
    it opened: the numbers of open displays and open devices are what they
    were. *)
Lemma CalibratorEvdev_throw_releases name axys0 id type s what :
  HAVE_XI_PROP s = true ->
  fst (CalibratorEvdev name axys0 id type s) = Throw what ->
  open_displays (snd (CalibratorEvdev name axys0 id type s)) = open_displays s
  /\ open_devices (snd (CalibratorEvdev name axys0 id type s)) = open_devices s.
Proof.
  intros Hxi.
  unfold CalibratorEvdev, XOpenDisplay, XOpenDevice, XCloseDisplay,
    XCloseDevice, xinput_parse_atom, XInternAtom, XGetDeviceProperty.
  run.
  destruct (x_display s); simpl; [| auto].
  destruct (id =? C.to_unsigned (sizeof_long s) (-1)); simpl.
  - rewrite xinput_find_device_info_effects.
    unfold candidates, lookup_id. simpl.
    destruct (filter _ (x_devices s)) as [|d [|d' rest]]; simpl; auto.
    destruct (x_openable s (dev_id d)); simpl; [| auto].
    rewrite Hxi. simpl.
    destruct (x_property s _); simpl; [discriminate | auto].
  - destruct (x_openable s id); simpl; [| auto].
    rewrite Hxi. simpl.
    destruct (x_property s _); simpl; [discriminate | auto].
Qed.

(** A constructor that returns holds one display and one device more, and
    the destructor gives both back. *)
Lemma CalibratorEvdev_ready_then_destroy name axys0 id type s device_id :
  fst (CalibratorEvdev name axys0 id type s) = Ready device_id ->
  let s' := snd (CalibratorEvdev name axys0 id type s) in
  open_displays s' = S (open_displays s)
  /\ open_devices s' = S (open_devices s)
  /\ open_displays (snd (CalibratorEvdev_destructor s')) = open_displays s
  /\ open_devices (snd (CalibratorEvdev_destructor s')) = open_devices s.
Proof.
  unfold CalibratorEvdev, CalibratorEvdev_destructor, XOpenDisplay,
    XOpenDevice, XCloseDisplay, XCloseDevice, xinput_parse_atom, XInternAtom,
    XGetDeviceProperty.
  run.
  destruct (x_display s); simpl; [| discriminate].
  destruct (id =? C.to_unsigned (sizeof_long s) (-1)); simpl.
  - rewrite xinput_find_device_info_effects.
    unfold candidates, lookup_id. simpl.
    destruct (filter _ (x_devices s)) as [|d [|d' rest]]; simpl;
      try discriminate.
    destruct (x_openable s (dev_id d)); simpl; [| discriminate].
    destruct (HAVE_XI_PROP s); simpl; [| discriminate].
    destruct (x_property s _); simpl; [auto | discriminate].
  - destruct (x_openable s id); simpl; [| discriminate].
    destruct (HAVE_XI_PROP s); simpl; [| discriminate].
    destruct (x_property s _); simpl; [auto | discriminate].
Qed.

(** C9: one exit of the constructor keeps both handles.  In a build without
    [HAVE_XI_PROP] the constructor opens the display and the device and
    then throws; [XCloseDevice] and [XCloseDisplay] are never called. *)
Theorem CalibratorEvdev_throws_with_open_handles :
  let start :=
    CalibratorEvdev "Touch" full_range 9 OUTYPE_AUTO
      (session false one_touch intern_all calibration_set inversion_off
         OUTYPE_AUTO) in
  fst start
  = Throw ("Evdev: you need at least libXi 1.2 and inputproto 1.5 "
           ++ "for dynamic recalibration of evdev.")
  /\ calls (snd start) = [XOpenDisplay_call; XOpenDevice_call 9]
  /\ open_displays (snd start) = 1%nat
  /\ open_devices (snd start) = 1%nat.
Proof. vm_compute. repeat split. Qed.

(** ** The 8-bit encoding on a little-endian host *)

Lemma store_byte_length i b data :
  length (Buffer.store_byte i b data) = length data.
Proof.
  revert i. induction data as [|c rest IH]; intros [|j]; simpl; auto.
Qed.

Lemma nth_store_byte_same i b data :
  (i < length data)%nat -> nth i (Buffer.store_byte i b data) 0 = b.
Proof.
  revert i. induction data as [|c rest IH]; intros [|j] H; simpl in *;
    try lia; try reflexivity.
  apply IH. lia.
Qed.

Lemma nth_store_byte_other i j b data :
  j <> i -> nth j (Buffer.store_byte i b data) 0 = nth j data 0.
Proof.
  revert i j. induction data as [|c rest IH]; intros [|i] [|j] H; simpl;
    try reflexivity; try congruence.
  apply IH. congruence.
Qed.

Lemma store_s_little_endian i v data :
  Buffer.store_s false i v data
  = Buffer.store_byte (2 * i + 1) (Buffer.byte_of v 1)
      (Buffer.store_byte (2 * i + 0) (Buffer.byte_of v 0) data).
Proof. reflexivity. Qed.

Lemma byte_of_0 v : Buffer.byte_of v 0 = C.to_uchar v.
Proof.
  unfold Buffer.byte_of, C.to_uchar. simpl. now rewrite Z.div_1_r.
Qed.

(** One turn of the loop at format 8, the [char] store followed by the
    [short] store: byte [i] holds the value cut to 8 bits, and no byte below
    [i] has changed. *)
Lemma turn_8_little_endian i v data :
  (i < length data)%nat ->
  let data' := Buffer.store_s false i v (Buffer.store_c i v data) in
  length data' = length data
  /\ nth i data' 0 = C.to_uchar v
  /\ forall j, (j < i)%nat -> nth j data' 0 = nth j data 0.
Proof.
  intros Hi data'. subst data'.
  rewrite store_s_little_endian. unfold Buffer.store_c.
  split; [now rewrite !store_byte_length |]. split.
  - rewrite nth_store_byte_other by lia.
    destruct i as [|i'].
    + change (2 * 0 + 0)%nat with 0%nat.
      rewrite nth_store_byte_same by (rewrite store_byte_length; exact Hi).
      apply byte_of_0.
    + rewrite nth_store_byte_other by lia.
      now apply nth_store_byte_same.
  - intros j Hj. now rewrite !nth_store_byte_other by lia.
Qed.

Lemma fill_8_little_endian size argv :
  forall i data,
    (i + length argv <= length data)%nat ->
    exists data',
      Buffer.fill false size 8 i argv data = Some data'
      /\ length data' = length data
      /\ (forall j, (j < i)%nat -> nth j data' 0 = nth j data 0)
      /\ (forall k, (k < length argv)%nat ->
                    nth (i + k) data' 0 = C.to_uchar (nth k argv 0)).
Proof.
  induction argv as [|v rest IH]; intros i data Hlen.
  - exists data. repeat split; auto. simpl. intros k Hk. lia.
  - simpl in Hlen.
    destruct (turn_8_little_endian i v data) as (Hl1 & Hi1 & Hlow1); [lia |].
    change (Buffer.fill false size 8 i (v :: rest) data)
      with (Buffer.fill false size 8 (S i) rest
              (Buffer.store_s false i v (Buffer.store_c i v data))).
    destruct (IH (S i) (Buffer.store_s false i v (Buffer.store_c i v data)))
      as (d2 & -> & Hl2 & Hlow2 & Hup2); [lia |].
    exists d2. split; [reflexivity |]. split; [congruence |]. split.
    + intros j Hj. rewrite Hlow2 by lia. now apply Hlow1.
    + intros [|k] Hk.
      * rewrite Nat.add_0_r, Hlow2 by lia. exact Hi1.
      * replace (i + S k)%nat with (S i + k)%nat by lia.
        apply Hup2. simpl in Hk. lia.
Qed.

Lemma map_seq_nth {A} (f : nat -> A) (g : Z -> A) argv :
  forall i,
    (forall k, (k < length argv)%nat -> f (i + k)%nat = g (nth k argv 0)) ->
    map f (seq i (length argv)) = map g argv.
Proof.
  induction argv as [|v rest IH]; intros i H; simpl; [reflexivity |].
  f_equal.
  - rewrite <- (Nat.add_0_r i). apply (H 0%nat). simpl. lia.
  - apply IH. intros k Hk.
    replace (S i + k)%nat with (i + S k)%nat by lia.
    apply (H (S k)). simpl. lia.
Qed.

(** On a little-endian host the bytes a format-8 request carries are the
    values cut to 8 bits, one per byte, in spite of the [short] stores. *)
Lemma encode_8_little_endian size argv :
  (1 <= size)%nat ->
  exists data,
    Buffer.encode false size 8 argv = Some data
    /\ Buffer.elements false size 8 (length argv) data
       = map C.to_uchar argv.
Proof.
  intros Hsize. unfold Buffer.encode.
  destruct (fill_8_little_endian size argv 0
              (Buffer.calloc (length argv) size))
    as (data & Hfill & _ & _ & Hup).
  { unfold Buffer.calloc. rewrite repeat_length. simpl. nia. }
  exists data. split; [exact Hfill |].
  unfold Buffer.elements. simpl.
  apply map_seq_nth. exact Hup.
Qed.

(** ** From a write to the request on the wire *)

(** On a build with [HAVE_XI_PROP], for a property name the server interns
    and a format of 8, 16 or 32, an entry into the bridge sends one
    [XChangeDeviceProperty] for the interned atom, with type INTEGER and the
    elements read from the encoded block, and returns true. *)
Lemma xinput_do_set_int_prop_sends name format argv s :
  HAVE_XI_PROP s = true ->
  C.all_digits name = false ->
  x_intern s name <> None_atom ->
  argv <> [] ->
  format = 8 \/ format = 16 \/ format = 32 ->
  exists data,
    Buffer.encode (big_endian s) (sizeof_long s) format argv = Some data
    /\ xinput_do_set_int_prop name format argv s
       = (true,
          emits s
            [set_int_prop_call name format argv;
             XInternAtom_call name;
             XChangeDeviceProperty_call (x_intern s name) XA_INTEGER format
               (Buffer.elements (big_endian s) (sizeof_long s) format
                  (length argv) data)]
            EmptyString EmptyString).
Proof.
  intros Hxi Hname Hatom Hargv Hformat.
  destruct (encode_known (big_endian s) (sizeof_long s) format argv Hformat)
    as (data & Hdata).
  exists data. split; [exact Hdata |].
  unfold xinput_do_set_int_prop, xinput_parse_atom, XInternAtom,
    XChangeDeviceProperty.
  run. rewrite Hxi, Hname. simpl.
  replace (Z.of_nat (length argv) <? 1) with false
    by (symmetry; apply Z.ltb_ge; destruct argv;
        [congruence | simpl length; lia]).
  simpl.
  replace (x_intern s name =? None_atom) with false
    by (symmetry; apply Z.eqb_neq; exact Hatom).
  replace (format =? 0) with false
    by (destruct Hformat as [-> | [-> | ->]]; reflexivity).
  simpl. rewrite Hdata. simpl. effects. reflexivity.
Qed.

(** On such a build and a little-endian host, the swap write of [apply]
    reaches the server as one 8-bit element, the new flag. *)
Lemma set_swapxy_sends_flag (flag : bool) s :
  HAVE_XI_PROP s = true ->
  big_endian s = false ->
  (1 <= sizeof_long s)%nat ->
  x_intern s "Evdev Axes Swap" <> None_atom ->
  fst (set_swapxy (Z.b2z flag) s) = true
  /\ calls (snd (set_swapxy (Z.b2z flag) s))
     = (calls s
        ++ [set_int_prop_call "Evdev Axes Swap" 8 [Z.b2z flag];
            XInternAtom_call "Evdev Axes Swap";
            XChangeDeviceProperty_call (x_intern s "Evdev Axes Swap")
              XA_INTEGER 8 [Z.b2z flag]])%list.
Proof.
  intros Hxi Hle Hsize Hatom.
  unfold set_swapxy. run. rewrite printf_emits.
  match goal with
  | |- context [xinput_do_set_int_prop ?n ?f ?v ?st] =>
      destruct (xinput_do_set_int_prop_sends n f v st)
        as (data & Hdata & ->); auto; try discriminate
  end.
  simpl in Hdata. rewrite Hle in Hdata.
  destruct (encode_8_little_endian (sizeof_long s) [Z.b2z flag] Hsize)
    as (data' & Hdata' & Hel).
  rewrite Hdata in Hdata'. injection Hdata' as <-.
  cbn [big_endian sizeof_long x_intern verbose emits]. rewrite Hle, Hel.
  destruct (verbose s), flag; simpl; rewrite ?app_nil_r;
    split; reflexivity.
Qed.

(* ================================================================== *)
(** * Further properties *)

(** ** Objects in the block: a store followed by a load *)

Lemma place_lt be width k : (k < width)%nat -> (Buffer.place be width k < width)%nat.
Proof. unfold Buffer.place. destruct be; lia. Qed.

Lemma place_inj be width j k :
  (j < width)%nat -> (k < width)%nat ->
  Buffer.place be width j = Buffer.place be width k -> j = k.
Proof. unfold Buffer.place. destruct be; lia. Qed.

Lemma fold_store_length (f : nat -> nat) (g : nat -> Z) ks :
  forall data,
    length (fold_left (fun d k => Buffer.store_byte (f k) (g k) d) ks data)
    = length data.
Proof.
  induction ks as [|k ks IH]; intros data; simpl; [reflexivity |].
  now rewrite IH, store_byte_length.
Qed.

Lemma fold_store_other (f : nat -> nat) (g : nat -> Z) ks j :
  (forall k, In k ks -> f k <> j) ->
  forall data,
    nth j (fold_left (fun d k => Buffer.store_byte (f k) (g k) d) ks data) 0
    = nth j data 0.
Proof.
  induction ks as [|k ks IH]; intros H data; simpl; [reflexivity |].
  rewrite IH by (intros k' Hk'; apply H; now right).
  apply nth_store_byte_other. intros E. apply (H k); [now left | auto].
Qed.

Lemma fold_store_same (f : nat -> nat) (g : nat -> Z) ks k :
  NoDup (map f ks) -> In k ks ->
  forall data,
    (f k < length data)%nat ->
    nth (f k) (fold_left (fun d k => Buffer.store_byte (f k) (g k) d) ks data) 0
    = g k.
Proof.
  induction ks as [|a ks IH]; intros Hnd Hin data Hlen; [contradiction |].
  simpl in Hnd. inversion Hnd as [|? ? Hnotin Hnd']; subst. simpl.
  destruct (in_dec Nat.eq_dec k ks) as [Hk | Hk].
  - apply IH; auto. now rewrite store_byte_length.
  - destruct Hin as [-> | Hin]; [| contradiction].
    rewrite fold_store_other.
    + now apply nth_store_byte_same.
    + intros k' Hk' E. apply Hnotin. rewrite <- E. now apply in_map.
Qed.

Lemma byte_sum v (bytes : nat -> Z) n :
  (forall k, (k < n)%nat -> bytes k = Buffer.byte_of v k) ->
  forall acc,
    fold_left (fun a k => a + bytes k * 2 ^ (8 * Z.of_nat k)) (seq 0 n) acc
    = acc + v mod 2 ^ (8 * Z.of_nat n).
Proof.
  induction n as [|n IH]; intros H acc.
  - simpl. rewrite Z.mod_1_r. lia.
  - rewrite seq_S, fold_left_app, IH by (intros k Hk; apply H; lia).
    cbn [fold_left Nat.add]. rewrite (H n) by lia. unfold Buffer.byte_of.
    replace (8 * Z.of_nat (S n)) with (8 * Z.of_nat n + 8) by lia.
    rewrite Z.pow_add_r by lia.
    rewrite (Z.rem_mul_r v (2 ^ (8 * Z.of_nat n)) (2 ^ 8)) by lia.
    change (2 ^ 8) with 256. lia.
Qed.

Lemma fold_load_ext (g g' : nat -> Z) ks :
  (forall k, In k ks -> g k = g' k) ->
  forall acc,
    fold_left (fun a k => a + g k * 2 ^ (8 * Z.of_nat k)) ks acc
    = fold_left (fun a k => a + g' k * 2 ^ (8 * Z.of_nat k)) ks acc.
Proof.
  induction ks as [|k ks IH]; intros H acc; [reflexivity |].
  cbn [fold_left]. rewrite (H k) by now left.
  apply IH. intros k' Hk'. apply H. now right.
Qed.

Lemma store_object_length be width off v data :
  length (Buffer.store_object be width off v data) = length data.
Proof. unfold Buffer.store_object. apply fold_store_length. Qed.

(** The object just stored reads back as the value cut to its width. *)
Lemma load_store_object be width off v data :
  (off + width <= length data)%nat ->
  Buffer.load_object be width off (Buffer.store_object be width off v data)
  = v mod 2 ^ (8 * Z.of_nat width).
Proof.
  intros Hfit. unfold Buffer.load_object.
  rewrite (byte_sum v
             (fun k => nth (off + Buffer.place be width k)
                         (Buffer.store_object be width off v data) 0)).
  - reflexivity.
  - intros k Hk. unfold Buffer.store_object.
    apply (fold_store_same (fun k => (off + Buffer.place be width k)%nat)
             (Buffer.byte_of v)).
    + apply NoDup_map_NoDup_ForallPairs; [| apply seq_NoDup].
      intros i j Hi Hj E. apply in_seq in Hi, Hj.
      apply (place_inj be width); lia.
    + apply in_seq. lia.
    + pose proof (place_lt be width k Hk). lia.
Qed.

(** A store leaves an object that does not overlap it as it was. *)
Lemma load_store_object_apart be width off off' v data :
  (off' + width <= off \/ off + width <= off')%nat ->
  Buffer.load_object be width off' (Buffer.store_object be width off v data)
  = Buffer.load_object be width off' data.
Proof.
  intros Hapart. unfold Buffer.load_object.
  assert (Hsame : forall k, In k (seq 0 width) ->
            nth (off' + Buffer.place be width k)
              (Buffer.store_object be width off v data) 0
            = nth (off' + Buffer.place be width k) data 0).
  { intros k Hk. apply in_seq in Hk. unfold Buffer.store_object.
    apply fold_store_other. intros k' Hk' E. apply in_seq in Hk'.
    pose proof (place_lt be width k). pose proof (place_lt be width k').
    lia. }
  apply fold_load_ext. exact Hsame.
Qed.

(** The loop at a format whose one store per element is the [width]-byte
    object [i]: the elements of [argv] end up in the block one after the
    other, each cut to the width, and what lies before them stays. *)
Lemma fill_objects be size format width :
  (forall i v data,
      Buffer.switch_format be size format i v data
      = Some (Buffer.store_object be width (width * i) v data)) ->
  forall argv i data,
    (width * (i + length argv) <= length data)%nat ->
    exists data',
      Buffer.fill be size format i argv data = Some data'
      /\ length data' = length data
      /\ (forall j, (j < i)%nat ->
            Buffer.load_object be width (width * j) data'
            = Buffer.load_object be width (width * j) data)
      /\ (forall k, (k < length argv)%nat ->
            Buffer.load_object be width (width * (i + k)) data'
            = nth k argv 0 mod 2 ^ (8 * Z.of_nat width)).
Proof.
  intros Hswitch.
  induction argv as [|v rest IH]; intros i data Hlen.
  - exists data. repeat split; auto. simpl. intros k Hk. lia.
  - simpl in Hlen. cbn [Buffer.fill]. rewrite Hswitch.
    destruct (IH (S i) (Buffer.store_object be width (width * i) v data))
      as (d2 & -> & Hl2 & Hlow2 & Hup2).
    { rewrite store_object_length. nia. }
    exists d2. split; [reflexivity |].
    split; [now rewrite Hl2, store_object_length |]. split.
    + intros j Hj. rewrite Hlow2 by lia.
      apply load_store_object_apart. nia.
    + intros [|k] Hk.
      * rewrite Nat.add_0_r, Hlow2 by lia.
        apply load_store_object. nia.
      * replace (i + S k)%nat with (S i + k)%nat by lia.
        apply Hup2. simpl in Hk. lia.
Qed.

Lemma encode_16_32_round_trip_shared be size format argv :
  (format = 16 /\ (2 <= size)%nat) \/ (format = 32 /\ (4 <= size)%nat) ->
  exists data,
    Buffer.encode be size format argv = Some data
    /\ Buffer.elements be size format (length argv) data
       = map (fun v => v mod 2 ^ format) argv.
Proof.
  intros [[-> Hsize] | [-> Hsize]]; unfold Buffer.encode.
  - destruct (fill_objects be size 16 2 (fun i v data => eq_refl) argv 0
                (Buffer.calloc (length argv) size))
      as (data & Hfill & _ & _ & Hup).
    { unfold Buffer.calloc. rewrite repeat_length. nia. }
    exists data. split; [exact Hfill |].
    unfold Buffer.elements. cbn [Z.eqb Pos.eqb].
    apply (map_seq_nth (fun i => Buffer.load_object be 2 (2 * i) data)
             (fun v => v mod 2 ^ 16)).
    intros k Hk. apply (Hup k Hk).
  - destruct (fill_objects be size 32 size (fun i v data => eq_refl) argv 0
                (Buffer.calloc (length argv) size))
      as (data & Hfill & _ & _ & Hup).
    { unfold Buffer.calloc. rewrite repeat_length. nia. }
    exists data. split; [exact Hfill |].
    unfold Buffer.elements. cbn [Z.eqb Pos.eqb].
    apply (map_seq_nth
             (fun i => Buffer.load_object be size (size * i) data mod 2 ^ 32)
             (fun v => v mod 2 ^ 32)).
    intros k Hk. cbn beta. rewrite (Hup k Hk).
    apply Z.mod_mod_divide.
    exists (2 ^ (8 * Z.of_nat size - 32)).
    rewrite <- Z.pow_add_r by lia. f_equal. lia.
Qed.

(** X1: at format 16 and at format 32 the block that goes to
    [XChangeDeviceProperty] carries every value of [argv] cut to the format
    width, in order, on a little-endian as on a big-endian host, when a
    [long] has at least 2 (format 16) or 4 (format 32) bytes. *)
Theorem encode_16_32_round_trip be size format argv :
  (format = 16 /\ (2 <= size)%nat) \/ (format = 32 /\ (4 <= size)%nat) ->
  exists data,
    Buffer.encode be size format argv = Some data
    /\ Buffer.elements be size format (length argv) data
       = map (fun v => v mod 2 ^ format) argv.
Proof. apply encode_16_32_round_trip_shared. Qed.

Lemma encode_16_32_round_trip_witness :
  exists data,
    Buffer.encode true 8 32 [-2; 4095] = Some data
    /\ Buffer.elements true 8 32 (length [-2; 4095]) data
       = map (fun v => v mod 2 ^ 32) [-2; 4095].
Proof.
  apply (encode_16_32_round_trip true 8 32 [-2; 4095]).
  right. split; [reflexivity | lia].
Defined.

(** ** The 8-bit encoding on a big-endian host *)

Lemma store_s_big_endian i v data :
  Buffer.store_s true i v data
  = Buffer.store_byte (2 * i + 0) (Buffer.byte_of v 1)
      (Buffer.store_byte (2 * i + 1) (Buffer.byte_of v 0) data).
Proof. reflexivity. Qed.

(** From element 1 on, the [short] store of a turn lies above the byte the
    [char] store has just written, whatever the byte order. *)
Lemma turn_8_above_0 be i v data :
  (1 <= i)%nat -> (i < length data)%nat ->
  let data' := Buffer.store_s be i v (Buffer.store_c i v data) in
  length data' = length data
  /\ nth i data' 0 = C.to_uchar v
  /\ forall j, (j < i)%nat -> nth j data' 0 = nth j data 0.
Proof.
  intros H1 Hi data'. subst data'. unfold Buffer.store_c.
  destruct be; [rewrite store_s_big_endian | rewrite store_s_little_endian];
    (split; [now rewrite !store_byte_length |]); split.
  - rewrite !nth_store_byte_other by lia. now apply nth_store_byte_same.
  - intros j Hj. now rewrite !nth_store_byte_other by lia.
  - rewrite !nth_store_byte_other by lia. now apply nth_store_byte_same.
  - intros j Hj. now rewrite !nth_store_byte_other by lia.
Qed.

Lemma fill_8_above_0 be size argv :
  forall i data,
    (1 <= i)%nat ->
    (i + length argv <= length data)%nat ->
    exists data',
      Buffer.fill be size 8 i argv data = Some data'
      /\ length data' = length data
      /\ (forall j, (j < i)%nat -> nth j data' 0 = nth j data 0)
      /\ (forall k, (k < length argv)%nat ->
                    nth (i + k) data' 0 = C.to_uchar (nth k argv 0)).
Proof.
  induction argv as [|v rest IH]; intros i data H1 Hlen.
  - exists data. repeat split; auto. simpl. intros k Hk. lia.
  - simpl in Hlen.
    destruct (turn_8_above_0 be i v data) as (Hl1 & Hi1 & Hlow1); [lia.. |].
    change (Buffer.fill be size 8 i (v :: rest) data)
      with (Buffer.fill be size 8 (S i) rest
              (Buffer.store_s be i v (Buffer.store_c i v data))).
    destruct (IH (S i) (Buffer.store_s be i v (Buffer.store_c i v data)))
      as (d2 & -> & Hl2 & Hlow2 & Hup2); [lia.. |].
    exists d2. split; [reflexivity |]. split; [congruence |]. split.
    + intros j Hj. rewrite Hlow2 by lia. now apply Hlow1.
    + intros [|k] Hk.
      * rewrite Nat.add_0_r, Hlow2 by lia. exact Hi1.
      * replace (i + S k)%nat with (S i + k)%nat by lia.
        apply Hup2. simpl in Hk. lia.
Qed.

(** X2: on a big-endian host a write at format 8 sends, as its first
    element, bits 8 to 15 of the first value instead of bits 0 to 7; all
    further elements are the values cut to 8 bits. *)
Theorem encode_8_big_endian size v rest :
  (2 <= size)%nat ->
  exists data,
    Buffer.encode true size 8 (v :: rest) = Some data
    /\ Buffer.elements true size 8 (length (v :: rest)) data
       = (v / 2 ^ 8) mod 2 ^ 8 :: map C.to_uchar rest.
Proof.
  intros Hsize. unfold Buffer.encode.
  set (block := Buffer.calloc (length (v :: rest)) size).
  assert (Hblock : (2 + length rest <= length block)%nat).
  { subst block. unfold Buffer.calloc. rewrite repeat_length.
    simpl length. nia. }
  change (Buffer.fill true size 8 0 (v :: rest) block)
    with (Buffer.fill true size 8 1 rest
            (Buffer.store_s true 0 v (Buffer.store_c 0 v block))).
  destruct (fill_8_above_0 true size rest 1
              (Buffer.store_s true 0 v (Buffer.store_c 0 v block)))
    as (data & Hfill & _ & Hlow & Hup).
  { lia. }
  { rewrite store_s_big_endian. unfold Buffer.store_c.
    rewrite !store_byte_length. lia. }
  exists data. split; [exact Hfill |].
  unfold Buffer.elements. cbn [Z.eqb Pos.eqb length seq map]. f_equal.
  - rewrite Hlow by lia. rewrite store_s_big_endian.
    change (2 * 0 + 0)%nat with 0%nat.
    apply nth_store_byte_same. unfold Buffer.store_c.
    rewrite !store_byte_length. lia.
  - apply (map_seq_nth (fun i => nth i data 0) C.to_uchar rest 1). exact Hup.
Qed.

Lemma encode_8_big_endian_witness :
  exists data,
    Buffer.encode true 8 8 [1; 1] = Some data
    /\ Buffer.elements true 8 8 (length [1; 1]) data
       = (1 / 2 ^ 8) mod 2 ^ 8 :: map C.to_uchar [1].
Proof. apply (encode_8_big_endian 8 1 [1]). lia. Defined.

(** ** The property bridge: when it succeeds and what it sends *)

Lemma encode_unknown be size format v rest :
  format <> 8 -> format <> 16 -> format <> 32 ->
  Buffer.encode be size format (v :: rest) = None.
Proof.
  intros H8 H16 H32. unfold Buffer.encode. cbn [Buffer.fill].
  unfold Buffer.switch_format.
  apply Z.eqb_neq in H8, H16, H32. now rewrite H8, H16, H32.
Qed.

Lemma encode_some_iff be size format v rest :
  (exists data, Buffer.encode be size format (v :: rest) = Some data)
  <-> format = 8 \/ format = 16 \/ format = 32.
Proof.
  split.
  - intros (data & H).
    destruct (Z.eq_dec format 8); [auto |].
    destruct (Z.eq_dec format 16); [auto |].
    destruct (Z.eq_dec format 32); [auto |].
    rewrite encode_unknown in H by assumption. discriminate.
  - apply encode_known.
Qed.

(** The bridge in one equation: the result and the calls it makes, by the
    atom the name stands for and the format it ends up with. *)
Lemma xinput_do_set_int_prop_cases name format argv s :
  let atom := fst (xinput_parse_atom name s) in
  let lookup := skipn (length (calls s)) (calls (snd (xinput_parse_atom name s))) in
  exists e,
    xinput_do_set_int_prop name format argv s
    = if negb (HAVE_XI_PROP s) then
        (false, emits s [set_int_prop_call name format argv] EmptyString e)
      else if Z.of_nat (length argv) <? 1 then
        (false, emits s [set_int_prop_call name format argv] EmptyString e)
      else if atom =? None_atom then
        (false, emits s (set_int_prop_call name format argv :: lookup)
                  EmptyString e)
      else
        let probe :=
          if format =? 0 then [XGetDeviceProperty_call atom 0 0] else [] in
        match format_used format atom s with
        | None =>
            (false, emits s (set_int_prop_call name format argv
                             :: lookup ++ probe) EmptyString e)
        | Some f =>
            match Buffer.encode (big_endian s) (sizeof_long s) f argv with
            | None =>
                (false, emits s (set_int_prop_call name format argv
                                 :: lookup ++ probe) EmptyString e)
            | Some data =>
                (true,
                 emits s
                   (set_int_prop_call name format argv
                    :: lookup ++ probe
                    ++ [XChangeDeviceProperty_call atom XA_INTEGER f
                          (Buffer.elements (big_endian s) (sizeof_long s) f
                             (length argv) data)])
                   EmptyString e)
            end
        end.
Proof.
  unfold xinput_do_set_int_prop, xinput_parse_atom, XInternAtom,
    XGetDeviceProperty, XChangeDeviceProperty, format_used.
  run.
  destruct (HAVE_XI_PROP s); simpl; [| eexists; effects; reflexivity].
  destruct (Z.of_nat (length argv) <? 1); simpl;
    [eexists; effects; reflexivity |].
  destruct (C.all_digits name); simpl.
  - rewrite skipn_all2 by lia.
    destruct (C.to_unsigned (sizeof_long s) (C.atoi name) =? None_atom);
      simpl; [eexists; effects; reflexivity |].
    destruct (format =? 0); simpl.
    + destruct (x_property s _) as [p|]; simpl;
        [| eexists; effects; reflexivity].
      destruct (Buffer.encode _ _ _ _); simpl; eexists; effects; reflexivity.
    + destruct (Buffer.encode _ _ _ _); simpl; eexists; effects; reflexivity.
  - rewrite skipn_app, skipn_all, Nat.sub_diag. simpl.
    destruct (x_intern s name =? None_atom);
      simpl; [eexists; effects; reflexivity |].
    destruct (format =? 0); simpl.
    + destruct (x_property s _) as [p|]; simpl;
        [| eexists; effects; reflexivity].
      destruct (Buffer.encode _ _ _ _); simpl; eexists; effects; reflexivity.
    + destruct (Buffer.encode _ _ _ _); simpl; eexists; effects; reflexivity.
Qed.

Lemma xinput_do_set_int_prop_succeeds name format argv s :
  fst (xinput_do_set_int_prop name format argv s) = true
  <-> HAVE_XI_PROP s = true
      /\ argv <> []
      /\ fst (xinput_parse_atom name s) <> None_atom
      /\ exists f,
           format_used format (fst (xinput_parse_atom name s)) s = Some f
           /\ (f = 8 \/ f = 16 \/ f = 32).
Proof.
  destruct (xinput_do_set_int_prop_cases name format argv s) as (e & ->).
  cbv zeta.
  destruct (HAVE_XI_PROP s); cbn [negb fst].
  2: { split; [discriminate | intros (H & _); discriminate]. }
  destruct (Z.ltb_spec (Z.of_nat (length argv)) 1) as [Hargc | Hargc].
  { cbn [fst]. split; [discriminate |]. intros (_ & H & _).
    destruct argv; [congruence | simpl length in Hargc; lia]. }
  destruct argv as [|v rest]; [simpl in Hargc; lia |].
  destruct (Z.eqb_spec (fst (xinput_parse_atom name s)) None_atom) as [E|N].
  { cbn [fst]. split; [discriminate | intros (_ & _ & H & _); congruence]. }
  destruct (format_used format _ s) as [f|].
  2: { cbn [fst]. split; [discriminate |].
       intros (_ & _ & _ & f & H & _). discriminate. }
  destruct (Buffer.encode _ _ f (v :: rest)) as [data|] eqn:Henc; cbn [fst].
  - split; [| reflexivity]. intros _. repeat split; try congruence.
    exists f. split; [reflexivity |].
    apply (encode_some_iff (big_endian s) (sizeof_long s) f v rest). eauto.
  - split; [discriminate |]. intros (_ & _ & _ & f' & Hf & Hfmt).
    injection Hf as <-.
    apply (encode_some_iff (big_endian s) (sizeof_long s)) with (v := v)
      (rest := rest) in Hfmt.
    destruct Hfmt as (data & Hdata). congruence.
Qed.

(** X3: the bridge returns true exactly when the build has property
    support, there is at least one value, the name stands for an atom other
    than None, and the format it ends up with (the one given, or with 0 the
    one a successful probe read reports) is 8, 16 or 32. *)
Theorem xinput_do_set_int_prop_true_iff name format argv s :
  fst (xinput_do_set_int_prop name format argv s) = true
  <-> HAVE_XI_PROP s = true
      /\ argv <> []
      /\ fst (xinput_parse_atom name s) <> None_atom
      /\ exists f,
           format_used format (fst (xinput_parse_atom name s)) s = Some f
           /\ (f = 8 \/ f = 16 \/ f = 32).
Proof. apply xinput_do_set_int_prop_succeeds. Qed.

Lemma filter_is_change_lookup name s :
  filter is_change
    (skipn (length (calls s)) (calls (snd (xinput_parse_atom name s)))) = [].
Proof.
  unfold xinput_parse_atom, XInternAtom. run.
  destruct (C.all_digits name); simpl.
  - now rewrite skipn_all2 by lia.
  - rewrite skipn_app, skipn_all, Nat.sub_diag. reflexivity.
Qed.

(** X4: an entry into the bridge sends one [XChangeDeviceProperty] request
    when it returns true and none when it returns false; the request is its
    last call. *)
Theorem xinput_do_set_int_prop_request_iff_true name format argv s :
  exists l,
    calls (snd (xinput_do_set_int_prop name format argv s))
    = (calls s ++ l)%list
    /\ length (filter is_change l)
       = (if fst (xinput_do_set_int_prop name format argv s)
          then 1 else 0)%nat
    /\ (fst (xinput_do_set_int_prop name format argv s) = true ->
        is_change (last l XSync_call) = true).
Proof.
  destruct (xinput_do_set_int_prop_cases name format argv s) as (e & ->).
  cbv zeta.
  pose proof (filter_is_change_lookup name s) as Hlookup.
  destruct (negb (HAVE_XI_PROP s));
    [eexists; cbn [fst snd calls emits]; split; [reflexivity |];
     split; [reflexivity | discriminate] |].
  destruct (Z.of_nat (length argv) <? 1);
    [eexists; cbn [fst snd calls emits]; split; [reflexivity |];
     split; [reflexivity | discriminate] |].
  destruct (fst (xinput_parse_atom name s) =? None_atom).
  { eexists; cbn [fst snd calls emits]; split; [reflexivity |].
    split; [| discriminate]. cbn [filter is_change]. now rewrite Hlookup. }
  assert (Hprobe : forall a,
             filter is_change
               (if format =? 0 then [XGetDeviceProperty_call a 0 0] else [])
             = []).
  { intros a. destruct (format =? 0); reflexivity. }
  destruct (format_used format _ s) as [f|].
  2: { eexists; cbn [fst snd calls emits]; split; [reflexivity |].
       split; [| discriminate].
       cbn [filter is_change]. now rewrite filter_app, Hlookup, Hprobe. }
  destruct (Buffer.encode _ _ f argv) as [data|].
  - eexists; cbn [fst snd calls emits]; split; [reflexivity |]. split.
    + cbn [filter is_change].
      now rewrite !filter_app, Hlookup, Hprobe.
    + intros _. rewrite app_comm_cons, !app_assoc, last_last. reflexivity.
  - eexists; cbn [fst snd calls emits]; split; [reflexivity |].
    split; [| discriminate].
    cbn [filter is_change]. now rewrite filter_app, Hlookup, Hprobe.
Qed.

(** The widths at which the block carries the values as they are: 16 and 32
    on every host, 8 on a little-endian one. *)
Lemma encode_elements be size format argv :
  (format = 8 /\ be = false /\ (1 <= size)%nat)
  \/ (format = 16 /\ (2 <= size)%nat)
  \/ (format = 32 /\ (4 <= size)%nat) ->
  exists data,
    Buffer.encode be size format argv = Some data
    /\ Buffer.elements be size format (length argv) data
       = map (fun v => v mod 2 ^ format) argv.
Proof.
  intros [(-> & -> & Hsize) | H].
  - apply encode_8_little_endian, Hsize.
  - apply encode_16_32_round_trip_shared, H.
Qed.

Lemma xinput_do_set_int_prop_values name format argv s :
  HAVE_XI_PROP s = true ->
  C.all_digits name = false ->
  x_intern s name <> None_atom ->
  argv <> [] ->
  (format = 8 /\ big_endian s = false /\ (1 <= sizeof_long s)%nat)
  \/ (format = 16 /\ (2 <= sizeof_long s)%nat)
  \/ (format = 32 /\ (4 <= sizeof_long s)%nat) ->
  xinput_do_set_int_prop name format argv s
  = (true,
     emits s
       [set_int_prop_call name format argv;
        XInternAtom_call name;
        XChangeDeviceProperty_call (x_intern s name) XA_INTEGER format
          (map (fun v => v mod 2 ^ format) argv)]
       EmptyString EmptyString).
Proof.
  intros Hxi Hname Hatom Hargv Hformat.
  destruct (xinput_do_set_int_prop_sends name format argv s Hxi Hname Hatom
              Hargv) as (data & Hdata & ->).
  { destruct Hformat as [(-> & _) | [(-> & _) | (-> & _)]]; auto. }
  destruct (encode_elements (big_endian s) (sizeof_long s) format argv Hformat)
    as (data' & Hdata' & Hel).
  rewrite Hdata in Hdata'. injection Hdata' as <-. now rewrite Hel.
Qed.

(** X5: on a build with property support, for a property name the server
    interns and at least one value, a write at format 16 or 32, or at format
    8 on a little-endian host, returns true after one [XInternAtom] and one
    [XChangeDeviceProperty] of type INTEGER whose elements are the values
    cut to the format width. *)
Theorem xinput_do_set_int_prop_sends_values name format argv s :
  HAVE_XI_PROP s = true ->
  C.all_digits name = false ->
  x_intern s name <> None_atom ->
  argv <> [] ->
  (format = 8 /\ big_endian s = false /\ (1 <= sizeof_long s)%nat)
  \/ (format = 16 /\ (2 <= sizeof_long s)%nat)
  \/ (format = 32 /\ (4 <= sizeof_long s)%nat) ->
  fst (xinput_do_set_int_prop name format argv s) = true
  /\ calls (snd (xinput_do_set_int_prop name format argv s))
     = (calls s
        ++ [set_int_prop_call name format argv;
            XInternAtom_call name;
            XChangeDeviceProperty_call (x_intern s name) XA_INTEGER format
              (map (fun v => v mod 2 ^ format) argv)])%list
  /\ stderr (snd (xinput_do_set_int_prop name format argv s)) = stderr s.
Proof.
  intros Hxi Hname Hatom Hargv Hformat.
  rewrite (xinput_do_set_int_prop_values name format argv s) by assumption.
  cbn [fst snd calls stderr emits]. rewrite append_nil_r. auto.
Qed.

Lemma xinput_do_set_int_prop_sends_values_witness :
  calls (snd (xinput_do_set_int_prop "Evdev Axis Calibration" 32
                [-1; 4095; 0; 4095] touchscreen))
  = [set_int_prop_call "Evdev Axis Calibration" 32 [-1; 4095; 0; 4095];
     XInternAtom_call "Evdev Axis Calibration";
     XChangeDeviceProperty_call 270 XA_INTEGER 32
       [4294967295; 4095; 0; 4095]].
Proof.
  refine (proj1 (proj2 (xinput_do_set_int_prop_sends_values
                          "Evdev Axis Calibration" 32 [-1; 4095; 0; 4095]
                          touchscreen eq_refl eq_refl _ _ _))).
  - discriminate.
  - discriminate.
  - right. right. split; [reflexivity | simpl; lia].
Defined.

(** ** [apply] on the wire *)

Lemma set_swapxy_values (flag : bool) s :
  HAVE_XI_PROP s = true -> big_endian s = false ->
  (1 <= sizeof_long s)%nat ->
  x_intern s "Evdev Axes Swap" <> None_atom ->
  exists o,
    set_swapxy (Z.b2z flag) s
    = (true,
       emits s
         [set_int_prop_call "Evdev Axes Swap" 8 [Z.b2z flag];
          XInternAtom_call "Evdev Axes Swap";
          XChangeDeviceProperty_call (x_intern s "Evdev Axes Swap")
            XA_INTEGER 8 [Z.b2z flag]] o EmptyString).
Proof.
  intros Hxi Hle Hsize Hatom. unfold set_swapxy. run. rewrite printf_emits.
  rewrite xinput_do_set_int_prop_values; auto; try discriminate.
  simpl. destruct (verbose s), flag; simpl; eexists; effects; reflexivity.
Qed.

Lemma set_invert_xy_values s :
  HAVE_XI_PROP s = true -> big_endian s = false ->
  (1 <= sizeof_long s)%nat ->
  x_intern s "Evdev Axis Inversion" <> None_atom ->
  exists o,
    set_invert_xy 0 0 s
    = (true,
       emits s
         [set_int_prop_call "Evdev Axis Inversion" 8 [0; 0];
          XInternAtom_call "Evdev Axis Inversion";
          XChangeDeviceProperty_call (x_intern s "Evdev Axis Inversion")
            XA_INTEGER 8 [0; 0]] o EmptyString).
Proof.
  intros Hxi Hle Hsize Hatom. unfold set_invert_xy. run. rewrite printf_emits.
  rewrite xinput_do_set_int_prop_values; auto; try discriminate.
  simpl. destruct (verbose s); simpl; eexists; effects; reflexivity.
Qed.

Lemma set_calibration_values a s :
  HAVE_XI_PROP s = true ->
  (4 <= sizeof_long s)%nat ->
  x_intern s "Evdev Axis Calibration" <> None_atom ->
  exists o,
    set_calibration a s
    = (true,
       emits s
         [set_int_prop_call "Evdev Axis Calibration" 32
            [min (x a); max (x a); min (y a); max (y a)];
          XInternAtom_call "Evdev Axis Calibration";
          XChangeDeviceProperty_call (x_intern s "Evdev Axis Calibration")
            XA_INTEGER 32
            (map (fun v => v mod 2 ^ 32)
               [min (x a); max (x a); min (y a); max (y a)])]
         o EmptyString).
Proof.
  intros Hxi Hsize Hatom. unfold set_calibration. run. rewrite printf_emits.
  rewrite xinput_do_set_int_prop_values; auto; try discriminate.
  cbn [verbose emits]. destruct (verbose s); eexists; effects; reflexivity.
Qed.

(** ** The writes of [apply] as requests

    The swap write carries one flag and the inversion write two zeros, both
    at format 8, where the [short] store of the loop comes after the [char]
    store. *)

Lemma store_byte_zeros i n :
  Buffer.store_byte i 0 (repeat 0 n) = repeat 0 n.
Proof.
  revert i. induction n as [|n IH]; intros [|i]; simpl; try reflexivity.
  now rewrite IH.
Qed.

Lemma store_object_zeros be width off n :
  Buffer.store_object be width off 0 (repeat 0 n) = repeat 0 n.
Proof.
  unfold Buffer.store_object.
  induction (seq 0 width) as [|k ks IH]; cbn [fold_left]; [reflexivity |].
  replace (Buffer.byte_of 0 k) with 0
    by (unfold Buffer.byte_of; now rewrite Zdiv_0_l).
  now rewrite store_byte_zeros.
Qed.

(** Two zeros leave the zeroed block as it is, in either byte order. *)
Lemma encode_8_zeros be size :
  Buffer.encode be size 8 [0; 0] = Some (repeat 0 (2 * size))
  /\ Buffer.elements be size 8 2 (repeat 0 (2 * size)) = [0; 0].
Proof.
  split.
  - unfold Buffer.encode, Buffer.calloc.
    cbn [length Buffer.fill Buffer.switch_format Z.eqb Pos.eqb].
    unfold Buffer.store_s, Buffer.store_c.
    change (C.to_uchar 0) with 0.
    repeat (rewrite store_byte_zeros || rewrite store_object_zeros).
    reflexivity.
  - unfold Buffer.elements. cbn [seq map Z.eqb Pos.eqb].
    now rewrite !nth_repeat.
Qed.

(** One flag: on a little-endian host the byte sent is the flag; on a
    big-endian host the [short] store puts the high byte of the flag, 0, on
    the byte the [char] store has just written. *)
Lemma encode_8_flag be size (flag : bool) :
  (2 <= size)%nat ->
  exists data,
    Buffer.encode be size 8 [Z.b2z flag] = Some data
    /\ Buffer.elements be size 8 1 data = [if be then 0 else Z.b2z flag].
Proof.
  intros Hsize. destruct size as [|[|n]]; try lia.
  unfold Buffer.encode, Buffer.calloc.
  cbn [length Nat.mul Nat.add repeat Buffer.fill Buffer.switch_format
       Z.eqb Pos.eqb].
  eexists. split; [reflexivity |].
  destruct be, flag; reflexivity.
Qed.

Lemma set_swapxy_request (flag : bool) s :
  HAVE_XI_PROP s = true ->
  (2 <= sizeof_long s)%nat ->
  x_intern s "Evdev Axes Swap" <> None_atom ->
  exists o,
    set_swapxy (Z.b2z flag) s
    = (true,
       emits s
         [set_int_prop_call "Evdev Axes Swap" 8 [Z.b2z flag];
          XInternAtom_call "Evdev Axes Swap";
          XChangeDeviceProperty_call (x_intern s "Evdev Axes Swap")
            XA_INTEGER 8 [if big_endian s then 0 else Z.b2z flag]]
         o EmptyString).
Proof.
  intros Hxi Hsize Hatom. unfold set_swapxy. run. rewrite printf_emits.
  match goal with
  | |- context [xinput_do_set_int_prop ?n ?f ?v ?st] =>
      destruct (xinput_do_set_int_prop_sends n f v st)
        as (data & Hdata & ->); auto; try discriminate
  end.
  cbn [big_endian sizeof_long emits] in Hdata.
  destruct (encode_8_flag (big_endian s) (sizeof_long s) flag Hsize)
    as (data' & Hdata' & Hel).
  rewrite Hdata in Hdata'. injection Hdata' as <-.
  cbn [big_endian sizeof_long x_intern verbose emits length fst snd].
  rewrite Hel.
  destruct (verbose s); simpl; eexists; effects; reflexivity.
Qed.

Lemma set_invert_xy_request s :
  HAVE_XI_PROP s = true ->
  x_intern s "Evdev Axis Inversion" <> None_atom ->
  exists o,
    set_invert_xy 0 0 s
    = (true,
       emits s
         [set_int_prop_call "Evdev Axis Inversion" 8 [0; 0];
          XInternAtom_call "Evdev Axis Inversion";
          XChangeDeviceProperty_call (x_intern s "Evdev Axis Inversion")
            XA_INTEGER 8 [0; 0]] o EmptyString).
Proof.
  intros Hxi Hatom. unfold set_invert_xy. run. rewrite printf_emits.
  match goal with
  | |- context [xinput_do_set_int_prop ?n ?f ?v ?st] =>
      destruct (xinput_do_set_int_prop_sends n f v st)
        as (data & Hdata & ->); auto; try discriminate
  end.
  cbn [big_endian sizeof_long emits] in Hdata.
  destruct (encode_8_zeros (big_endian s) (sizeof_long s)) as (Hzeros & Hel).
  assert (Hblock : data = repeat 0 (2 * sizeof_long s)) by congruence.
  subst data.
  cbn [big_endian sizeof_long x_intern verbose emits length fst snd].
  rewrite Hel.
  destruct (verbose s); simpl; eexists; effects; reflexivity.
Qed.

(** What [apply] does on a build with property support and a server that
    interns the three names, in one equation: every step succeeds, and the
    calls are the entries into the bridge, each with its [XInternAtom] and
    its request, then the flush. *)
Lemma apply_requests new_axys s :
  serves_properties s ->
  (4 <= sizeof_long s)%nat ->
  exists o,
    apply new_axys s
    = (true,
       emits s
         ((if Bool.eqb (swap_xy (old_axys s)) (swap_xy new_axys) then []
           else [set_int_prop_call "Evdev Axes Swap" 8
                   [Z.b2z (swap_xy new_axys)];
                 XInternAtom_call "Evdev Axes Swap";
                 XChangeDeviceProperty_call (x_intern s "Evdev Axes Swap")
                   XA_INTEGER 8
                   [if big_endian s then 0 else Z.b2z (swap_xy new_axys)]])
          ++ [set_int_prop_call "Evdev Axis Inversion" 8 [0; 0];
              XInternAtom_call "Evdev Axis Inversion";
              XChangeDeviceProperty_call (x_intern s "Evdev Axis Inversion")
                XA_INTEGER 8 [0; 0];
              set_int_prop_call "Evdev Axis Calibration" 32
                [min (x new_axys); max (x new_axys);
                 min (y new_axys); max (y new_axys)];
              XInternAtom_call "Evdev Axis Calibration";
              XChangeDeviceProperty_call
                (x_intern s "Evdev Axis Calibration") XA_INTEGER 32
                (map (fun v => v mod 2 ^ 32)
                   [min (x new_axys); max (x new_axys);
                    min (y new_axys); max (y new_axys)]);
              XSync_call])
         o EmptyString).
Proof.
  intros (Hxi & Hswap & Hinv & Hcal) Hsize.
  unfold apply, XSync. run. rewrite printf_emits.
  destruct (Bool.eqb (swap_xy (old_axys s)) (swap_xy new_axys)); simpl.
  - match goal with
    | |- context [set_invert_xy 0 0 ?st] =>
        destruct (set_invert_xy_request st) as (oi & ->);
          [assumption | assumption |]
    end.
    match goal with
    | |- context [set_calibration new_axys ?st] =>
        destruct (set_calibration_values new_axys st) as (oc & ->);
          [assumption | simpl; lia | assumption |]
    end.
    eexists. effects. reflexivity.
  - match goal with
    | |- context [set_swapxy (Z.b2z ?f) ?st] =>
        destruct (set_swapxy_request f st) as (os & ->);
          [assumption | simpl; lia | assumption |]
    end.
    match goal with
    | |- context [set_invert_xy 0 0 ?st] =>
        destruct (set_invert_xy_request st) as (oi & ->);
          [assumption | assumption |]
    end.
    match goal with
    | |- context [set_calibration new_axys ?st] =>
        destruct (set_calibration_values new_axys st) as (oc & ->);
          [assumption | simpl; lia | assumption |]
    end.
    eexists. effects. reflexivity.
Qed.

(** C2: the claim fails on a big-endian host.  On a build with property
    support and a server that interns the three names, [apply] enters the
    bridge for "Evdev Axes Swap" and sends a request for that property
    exactly when the swap flag of the calibration it holds differs from the
    one of the new calibration: one entry with the new flag, one request of
    type INTEGER and format 8 with one element.  On a little-endian host
    that element is the new flag; on a big-endian host it is 0 whatever the
    new flag, so a new flag of true is written as false. *)
Theorem apply_swap_request new_axys s :
  serves_properties s ->
  (4 <= sizeof_long s)%nat ->
  exists l,
    calls (snd (apply new_axys s)) = (calls s ++ l)%list
    /\ writes_to "Evdev Axes Swap" l
       = (if Bool.eqb (swap_xy (old_axys s)) (swap_xy new_axys) then []
          else [set_int_prop_call "Evdev Axes Swap" 8
                  [Z.b2z (swap_xy new_axys)]])
    /\ requests_for "Evdev Axes Swap" l
       = (if Bool.eqb (swap_xy (old_axys s)) (swap_xy new_axys) then []
          else [XChangeDeviceProperty_call (x_intern s "Evdev Axes Swap")
                  XA_INTEGER 8
                  [if big_endian s then 0 else Z.b2z (swap_xy new_axys)]]).
Proof.
  intros Hserves Hsize.
  destruct (apply_requests new_axys s Hserves Hsize) as (o & ->).
  cbn [snd calls emits]. eexists. split; [reflexivity |].
  destruct (Bool.eqb (swap_xy (old_axys s)) (swap_xy new_axys));
    split; reflexivity.
Qed.

Lemma apply_swap_request_witness :
  serves_properties (on_big_endian touchscreen)
  /\ swap_xy (old_axys (on_big_endian touchscreen)) = false
  /\ swap_xy target = true
  /\ exists l,
       calls (snd (apply target (on_big_endian touchscreen))) = l
       /\ writes_to "Evdev Axes Swap" l
          = [set_int_prop_call "Evdev Axes Swap" 8 [1]]
       /\ requests_for "Evdev Axes Swap" l
          = [XChangeDeviceProperty_call 271 XA_INTEGER 8 [0]].
Proof.
  assert (Hserves : serves_properties (on_big_endian touchscreen))
    by (repeat split; discriminate).
  split; [exact Hserves |]. split; [reflexivity |]. split; [reflexivity |].
  apply (apply_swap_request target (on_big_endian touchscreen) Hserves).
  simpl. lia.
Defined.



(** X6: on a little-endian host with property support and a server that
    interns the three names, [apply] returns true and what it sends is, in
    this order: the swap flag as one 8-bit element when it differs from the
    one held, the inversion (0, 0), the four calibration values as 32-bit
    elements, and the flush. *)
Theorem apply_sends new_axys s :
  serves_properties s ->
  big_endian s = false ->
  (4 <= sizeof_long s)%nat ->
  fst (apply new_axys s) = true
  /\ exists l,
       calls (snd (apply new_axys s)) = (calls s ++ l)%list
       /\ filter is_sent l
          = ((if Bool.eqb (swap_xy (old_axys s)) (swap_xy new_axys) then []
              else [XChangeDeviceProperty_call (x_intern s "Evdev Axes Swap")
                      XA_INTEGER 8 [Z.b2z (swap_xy new_axys)]])
             ++ [XChangeDeviceProperty_call
                   (x_intern s "Evdev Axis Inversion") XA_INTEGER 8 [0; 0];
                 XChangeDeviceProperty_call
                   (x_intern s "Evdev Axis Calibration") XA_INTEGER 32
                   [min (x new_axys) mod 2 ^ 32; max (x new_axys) mod 2 ^ 32;
                    min (y new_axys) mod 2 ^ 32; max (y new_axys) mod 2 ^ 32];
                 XSync_call])%list.
Proof.
  intros (Hxi & Hswap & Hinv & Hcal) Hle Hsize.
  unfold apply, XSync. run. rewrite printf_emits.
  destruct (Bool.eqb (swap_xy (old_axys s)) (swap_xy new_axys)); simpl.
  - match goal with
    | |- context [set_invert_xy 0 0 ?st] =>
        destruct (set_invert_xy_values st) as (oi & ->);
          [assumption | assumption | simpl; lia | assumption |]
    end.
    match goal with
    | |- context [set_calibration new_axys ?st] =>
        destruct (set_calibration_values new_axys st) as (oc & ->);
          [assumption | simpl; lia | assumption |]
    end.
    split; [reflexivity |]. effects. cbn [snd calls emits].
    eexists. split; [reflexivity |]. reflexivity.
  - match goal with
    | |- context [set_swapxy (Z.b2z ?f) ?st] =>
        destruct (set_swapxy_values f st) as (os & ->);
          [assumption | assumption | simpl; lia | assumption |]
    end.
    match goal with
    | |- context [set_invert_xy 0 0 ?st] =>
        destruct (set_invert_xy_values st) as (oi & ->);
          [assumption | assumption | simpl; lia | assumption |]
    end.
    match goal with
    | |- context [set_calibration new_axys ?st] =>
        destruct (set_calibration_values new_axys st) as (oc & ->);
          [assumption | simpl; lia | assumption |]
    end.
    split; [reflexivity |]. effects. cbn [snd calls emits].
    eexists. split; [reflexivity |]. reflexivity.
Qed.

Lemma apply_sends_witness :
  fst (apply target touchscreen) = true
  /\ exists l,
       calls (snd (apply target touchscreen)) = l
       /\ filter is_sent l
          = [XChangeDeviceProperty_call 271 XA_INTEGER 8 [1];
             XChangeDeviceProperty_call 272 XA_INTEGER 8 [0; 0];
             XChangeDeviceProperty_call 270 XA_INTEGER 32
               [100; 3900; 50; 4000];
             XSync_call].
Proof.
  refine (apply_sends target touchscreen _ eq_refl _).
  - repeat split; discriminate.
  - simpl. lia.
Defined.

(** ** [detect_axys]: what it holds and what it writes *)

(** The calibration block in the unset case, on a build with property
    support and for a property the server interns: the read, the entry into
    the bridge with the four values held, and the request that carries
    them.  The value held stays as it is. *)
Lemma detect_calibration_unset_request s p :
  x_property s (x_intern s "Evdev Axis Calibration") = Some p ->
  act_format p = 32 -> act_type p = XA_INTEGER -> nitems p = 0 ->
  HAVE_XI_PROP s = true ->
  x_intern s "Evdev Axis Calibration" <> None_atom ->
  (4 <= sizeof_long s)%nat ->
  exists o,
    detect_calibration s
    = (tt,
       emits s
         [XInternAtom_call "Evdev Axis Calibration";
          XGetDeviceProperty_call (x_intern s "Evdev Axis Calibration")
            0 1000;
          set_int_prop_call "Evdev Axis Calibration" 32
            [min (x (old_axys s)); max (x (old_axys s));
             min (y (old_axys s)); max (y (old_axys s))];
          XInternAtom_call "Evdev Axis Calibration";
          XChangeDeviceProperty_call (x_intern s "Evdev Axis Calibration")
            XA_INTEGER 32
            (map (fun v => v mod 2 ^ 32)
               [min (x (old_axys s)); max (x (old_axys s));
                min (y (old_axys s)); max (y (old_axys s))])]
         o EmptyString).
Proof.
  intros Hp Hf Ht Hn Hxi Hatom Hsize.
  assert (Hi : items p = []).
  { unfold nitems in Hn. destruct (items p); [reflexivity | discriminate]. }
  unfold detect_calibration, xinput_parse_atom, XInternAtom,
    XGetDeviceProperty.
  run. rewrite Hp. simpl. unfold nitems, clip. rewrite Hf, Ht, Hi. simpl.
  destruct (verbose s); simpl;
    match goal with
    | |- context [set_calibration ?a ?st] =>
        destruct (set_calibration_values a st) as (oc & ->);
          [assumption | simpl; lia | assumption |]
    end;
    simpl; eexists; effects; reflexivity.
Qed.

(** The calls of [detect_axys] in that case, and its stderr. *)
Lemma detect_axys_unset_calls s p :
  x_property s (x_intern s "Evdev Axis Calibration") = Some p ->
  act_format p = 32 -> act_type p = XA_INTEGER -> nitems p = 0 ->
  HAVE_XI_PROP s = true ->
  x_intern s "Evdev Axis Calibration" <> None_atom ->
  (4 <= sizeof_long s)%nat ->
  calls (snd (detect_axys s))
  = (calls s
     ++ [XInternAtom_call "Evdev Axis Calibration";
         XGetDeviceProperty_call (x_intern s "Evdev Axis Calibration") 0 1000;
         set_int_prop_call "Evdev Axis Calibration" 32
           [min (x (old_axys s)); max (x (old_axys s));
            min (y (old_axys s)); max (y (old_axys s))];
         XInternAtom_call "Evdev Axis Calibration";
         XChangeDeviceProperty_call (x_intern s "Evdev Axis Calibration")
           XA_INTEGER 32
           [min (x (old_axys s)) mod 2 ^ 32; max (x (old_axys s)) mod 2 ^ 32;
            min (y (old_axys s)) mod 2 ^ 32; max (y (old_axys s)) mod 2 ^ 32];
         XInternAtom_call "Evdev Axes Swap";
         XGetDeviceProperty_call (x_intern s "Evdev Axes Swap") 0 1000;
         XInternAtom_call "Evdev Axis Inversion";
         XGetDeviceProperty_call (x_intern s "Evdev Axis Inversion")
           0 1000])%list
  /\ stderr (snd (detect_axys s)) = stderr s.
Proof.
  intros Hp Hf Ht Hn Hxi Hatom Hsize.
  destruct (detect_calibration_unset_request s p Hp Hf Ht Hn Hxi Hatom Hsize)
    as (o & Hc).
  destruct (detect_axys_effects s)
    as (a1 & l1 & o1 & e1 & a2 & o' & H1 & _ & Hd).
  rewrite Hc in H1. apply (f_equal snd) in H1.
  pose proof (f_equal calls H1) as Hcalls.
  pose proof (f_equal stderr H1) as Herr.
  cbn [snd calls stderr emits set_old_axys] in Hcalls, Herr.
  apply app_inv_head in Hcalls. subst l1.
  rewrite Hd. cbn [snd calls stderr emits set_old_axys set_orig_axys].
  rewrite <- Herr, append_nil_r. split; reflexivity.
Qed.

(** C7: when the read of "Evdev Axis Calibration" succeeds with format 32,
    type INTEGER and no item, on a build with property support,
    [detect_axys] makes one write: one entry into the bridge and one request
    for that property, of type INTEGER and format 32, whose elements are the
    four values held.  No other request changes a property; the reads of the
    swap and of the inversion property follow, nothing goes to stderr, and
    the result is stored as the original and as the value held. *)
Theorem detect_axys_rewrites_unset_calibration s p :
  x_property s (x_intern s "Evdev Axis Calibration") = Some p ->
  act_format p = 32 -> act_type p = XA_INTEGER -> nitems p = 0 ->
  HAVE_XI_PROP s = true ->
  x_intern s "Evdev Axis Calibration" <> None_atom ->
  (4 <= sizeof_long s)%nat ->
  exists l,
    calls (snd (detect_axys s)) = (calls s ++ l)%list
    /\ filter is_write l
       = [set_int_prop_call "Evdev Axis Calibration" 32
            [min (x (old_axys s)); max (x (old_axys s));
             min (y (old_axys s)); max (y (old_axys s))]]
    /\ filter is_change l
       = [XChangeDeviceProperty_call (x_intern s "Evdev Axis Calibration")
            XA_INTEGER 32
            [min (x (old_axys s)) mod 2 ^ 32; max (x (old_axys s)) mod 2 ^ 32;
             min (y (old_axys s)) mod 2 ^ 32; max (y (old_axys s)) mod 2 ^ 32]]
    /\ skipn 5 l
       = [XInternAtom_call "Evdev Axes Swap";
          XGetDeviceProperty_call (x_intern s "Evdev Axes Swap") 0 1000;
          XInternAtom_call "Evdev Axis Inversion";
          XGetDeviceProperty_call (x_intern s "Evdev Axis Inversion") 0 1000]
    /\ stderr (snd (detect_axys s)) = stderr s
    /\ orig_axys (snd (detect_axys s)) = old_axys (snd (detect_axys s)).
Proof.
  intros Hp Hf Ht Hn Hxi Hatom Hsize.
  destruct (detect_axys_unset_calls s p Hp Hf Ht Hn Hxi Hatom Hsize)
    as (Hcalls & Herr).
  eexists. split; [exact Hcalls |].
  repeat split; try reflexivity.
  - exact Herr.
  - apply detect_axys_orig_is_old.
Qed.

Lemma detect_axys_rewrites_unset_calibration_witness :
  nitems calibration_unset = 0
  /\ exists l,
       calls (snd (detect_axys
                     (session true one_touch intern_all calibration_unset
                        inversion_off OUTYPE_AUTO))) = l
       /\ filter is_write l
          = [set_int_prop_call "Evdev Axis Calibration" 32
               [0; 4095; 0; 4095]]
       /\ filter is_change l
          = [XChangeDeviceProperty_call 270 XA_INTEGER 32 [0; 4095; 0; 4095]].
Proof.
  split; [reflexivity |].
  destruct (detect_axys_rewrites_unset_calibration
              (session true one_touch intern_all calibration_unset
                 inversion_off OUTYPE_AUTO)
              calibration_unset eq_refl eq_refl eq_refl eq_refl eq_refl)
    as (l & Hcalls & Hwrite & Hchange & _).
  - discriminate.
  - simpl. lia.
  - exists l. split; [exact Hcalls |]. split; [exact Hwrite | exact Hchange].
Defined.

Lemma detect_calibration_cases s :
  exists w o e,
    detect_calibration s
    = (tt,
       set_old_axys
         (after_calibration (heap_beyond s) (old_axys s)
            (reply_to "Evdev Axis Calibration" s))
         (emits s
            (XInternAtom_call "Evdev Axis Calibration"
             :: XGetDeviceProperty_call
                  (x_intern s "Evdev Axis Calibration") 0 1000
             :: w) o e))
    /\ filter is_write w
       = (if is_unset (reply_to "Evdev Axis Calibration" s)
          then [set_int_prop_call "Evdev Axis Calibration" 32
                  [min (x (old_axys s)); max (x (old_axys s));
                   min (y (old_axys s)); max (y (old_axys s))]]
          else [])
    /\ (is_unset (reply_to "Evdev Axis Calibration" s) = false ->
        w = [] /\ e = EmptyString).
Proof.
  unfold detect_calibration, xinput_parse_atom, XInternAtom,
    XGetDeviceProperty, after_calibration, is_unset, reply_to.
  run.
  destruct (x_property s (x_intern s "Evdev Axis Calibration")) as [p|]; simpl.
  2: { exists []. do 2 eexists. effects.
       rewrite set_old_axys_frame. auto. }
  destruct ((act_format p =? 32) && (act_type p =? XA_INTEGER)); simpl.
  2: { exists []. do 2 eexists. effects.
       rewrite set_old_axys_frame. auto. }
  destruct (nitems (clip 1000 p) =? 0); simpl.
  - destruct (verbose s); simpl; step_write; simpl;
      eexists (_ :: _); do 2 eexists; effects;
      rewrite set_old_axys_frame;
      (split; [reflexivity |]);
      (split; [| discriminate]);
      cbn [filter is_write]; f_equal; now apply filter_is_write_landmark.
  - exists []. do 2 eexists. effects. auto.
Qed.

Lemma detect_swap_cases s :
  exists o,
    detect_swap s
    = (tt,
       set_old_axys (after_swap (old_axys s) (reply_to "Evdev Axes Swap" s))
         (emits s
            [XInternAtom_call "Evdev Axes Swap";
             XGetDeviceProperty_call (x_intern s "Evdev Axes Swap") 0 1000]
            o EmptyString)).
Proof.
  unfold detect_swap, xinput_parse_atom, XInternAtom, XGetDeviceProperty,
    after_swap, reply_to.
  run.
  destruct (x_property s (x_intern s "Evdev Axes Swap")) as [p|]; simpl.
  2: { eexists. effects. rewrite set_old_axys_frame. reflexivity. }
  destruct ((act_format p =? 8) && (act_type p =? XA_INTEGER)
            && (nitems (clip 1000 p) =? 1)); simpl.
  2: { eexists. effects. rewrite set_old_axys_frame. reflexivity. }
  destruct (verbose s); simpl; eexists; effects; reflexivity.
Qed.

(** [detect_axys] in one equation. *)
Lemma detect_axys_cases s :
  let final :=
    detected (heap_beyond s) (old_axys s)
      (reply_to "Evdev Axis Calibration" s)
      (reply_to "Evdev Axes Swap" s) (reply_to "Evdev Axis Inversion" s) in
  exists w o e,
    detect_axys s
    = (tt,
       set_orig_axys final
         (set_old_axys final
            (emits s
               (XInternAtom_call "Evdev Axis Calibration"
                :: XGetDeviceProperty_call
                     (x_intern s "Evdev Axis Calibration") 0 1000
                :: w
                ++ [XInternAtom_call "Evdev Axes Swap";
                    XGetDeviceProperty_call
                      (x_intern s "Evdev Axes Swap") 0 1000;
                    XInternAtom_call "Evdev Axis Inversion";
                    XGetDeviceProperty_call
                      (x_intern s "Evdev Axis Inversion") 0 1000])
               o e)))
    /\ filter is_write w
       = (if is_unset (reply_to "Evdev Axis Calibration" s)
          then [set_int_prop_call "Evdev Axis Calibration" 32
                  [min (x (old_axys s)); max (x (old_axys s));
                   min (y (old_axys s)); max (y (old_axys s))]]
          else [])
    /\ (is_unset (reply_to "Evdev Axis Calibration" s) = false ->
        w = [] /\ e = EmptyString).
Proof.
  intros final.
  destruct (detect_calibration_cases s) as (w & o1 & e1 & H1 & Hw).
  match type of H1 with
  | _ = (tt, ?s1) => destruct (detect_swap_cases s1) as (o2 & H2)
  end.
  simpl in H2.
  match type of H2 with
  | _ = (tt, ?s2) => destruct (detect_inversion_effects s2) as (o3 & H3)
  end.
  simpl in H3.
  exists w. do 2 eexists. split; [| exact Hw].
  unfold detect_axys. run. rewrite H1. simpl. rewrite H2. simpl.
  rewrite H3. simpl. effects. reflexivity.
Qed.

Lemma detect_axys_state s :
  exists l o e,
    snd (detect_axys s)
    = set_orig_axys
        (detected (heap_beyond s) (old_axys s)
           (reply_to "Evdev Axis Calibration" s)
           (reply_to "Evdev Axes Swap" s) (reply_to "Evdev Axis Inversion" s))
        (set_old_axys
           (detected (heap_beyond s) (old_axys s)
              (reply_to "Evdev Axis Calibration" s)
              (reply_to "Evdev Axes Swap" s)
              (reply_to "Evdev Axis Inversion" s))
           (emits s l o e)).
Proof.
  destruct (detect_axys_cases s) as (w & o & e & -> & _).
  do 3 eexists. reflexivity.
Qed.

(** X7: unless the reply to the first read has format 32, type INTEGER and
    no item, [detect_axys] only asks: its calls are the three pairs of
    [XInternAtom] and [XGetDeviceProperty], in the order calibration, swap,
    inversion; nothing is written and nothing goes to stderr. *)
Theorem detect_axys_only_reads s :
  is_unset (reply_to "Evdev Axis Calibration" s) = false ->
  calls (snd (detect_axys s))
  = (calls s
     ++ [XInternAtom_call "Evdev Axis Calibration";
         XGetDeviceProperty_call (x_intern s "Evdev Axis Calibration") 0 1000;
         XInternAtom_call "Evdev Axes Swap";
         XGetDeviceProperty_call (x_intern s "Evdev Axes Swap") 0 1000;
         XInternAtom_call "Evdev Axis Inversion";
         XGetDeviceProperty_call (x_intern s "Evdev Axis Inversion")
           0 1000])%list
  /\ stderr (snd (detect_axys s)) = stderr s.
Proof.
  intros Hset.
  destruct (detect_axys_cases s) as (w & o & e & Hd & _ & Hw).
  rewrite Hd. destruct (Hw Hset) as [-> ->].
  cbn [snd calls stderr set_orig_axys set_old_axys emits app].
  now rewrite append_nil_r.
Qed.

Lemma detect_axys_only_reads_witness :
  calls (snd (detect_axys touchscreen))
  = [XInternAtom_call "Evdev Axis Calibration";
     XGetDeviceProperty_call 270 0 1000;
     XInternAtom_call "Evdev Axes Swap";
     XGetDeviceProperty_call 271 0 1000;
     XInternAtom_call "Evdev Axis Inversion";
     XGetDeviceProperty_call 272 0 1000].
Proof. exact (proj1 (detect_axys_only_reads touchscreen eq_refl)). Defined.

Lemma swap_min_max_twice a : swap_min_max (swap_min_max a) = a.
Proof. destruct a; reflexivity. Qed.

Lemma detected_twice beyond old calibration swap inversion p :
  calibration = Some p ->
  act_format p = 32 -> act_type p = XA_INTEGER -> nitems p <> 0 ->
  detected beyond (detected beyond old calibration swap inversion)
    calibration swap inversion
  = detected beyond old calibration swap inversion.
Proof.
  intros -> Hf Ht Hn. unfold detected, after_calibration.
  rewrite Hf, Ht. apply Z.eqb_neq in Hn. rewrite Hn.
  replace ((32 =? 32) && (XA_INTEGER =? XA_INTEGER) && negb false) with true
    by reflexivity.
  unfold read_calibration, after_swap, after_inversion.
  destruct swap as [ps|]; destruct inversion as [pi|]; cbn [swap_xy x y];
    repeat match goal with
           | |- context [if ?c then _ else _] => destruct c; cbn [swap_xy x y]
           end;
    reflexivity.
Qed.

(** X8: when the calibration property can be read (format 32, type INTEGER,
    the four items the block reads or more), a second [detect_axys] ends
    with the value the first one ended with. *)
Theorem detect_axys_twice s p :
  reply_to "Evdev Axis Calibration" s = Some p ->
  act_format p = 32 -> act_type p = XA_INTEGER -> 4 <= nitems p ->
  old_axys (snd (detect_axys (snd (detect_axys s))))
  = old_axys (snd (detect_axys s))
  /\ orig_axys (snd (detect_axys (snd (detect_axys s))))
     = orig_axys (snd (detect_axys s)).
Proof.
  intros Hp Hf Ht Hfour.
  assert (Hn : nitems p <> 0) by lia.
  destruct (detect_axys_state s) as (l & o & e & Hs).
  destruct (detect_axys_state (snd (detect_axys s))) as (l' & o' & e' & Hs').
  rewrite Hs'. rewrite Hs at 6 7 8 9 10 16 17 18 19 20. rewrite Hs.
  cbn [old_axys orig_axys heap_beyond set_orig_axys set_old_axys emits].
  unfold reply_to.
  cbn [x_property x_intern set_orig_axys set_old_axys emits].
  fold (reply_to "Evdev Axis Calibration" s).
  fold (reply_to "Evdev Axes Swap" s).
  fold (reply_to "Evdev Axis Inversion" s).
  rewrite (detected_twice _ _ _ _ _ p Hp Hf Ht Hn). auto.
Qed.

Lemma detect_axys_twice_witness :
  4 <= nitems calibration_set
  /\ old_axys (snd (detect_axys
                      (snd (detect_axys
                              (session true one_touch intern_all
                                 calibration_set inversion_x OUTYPE_AUTO)))))
     = old_axys (snd (detect_axys
                        (session true one_touch intern_all calibration_set
                           inversion_x OUTYPE_AUTO))).
Proof.
  assert (Hfour : 4 <= nitems calibration_set) by (vm_compute; discriminate).
  split; [exact Hfour |].
  exact (proj1 (detect_axys_twice
                  (session true one_touch intern_all calibration_set
                     inversion_x OUTYPE_AUTO)
                  calibration_set eq_refl eq_refl eq_refl Hfour)).
Defined.

Lemma to_int_mod v : is_int v -> C.to_int (v mod 2 ^ 32) = v.
Proof.
  unfold is_int, C.to_int. intros H.
  rewrite Zplus_mod_idemp_l.
  rewrite Z.mod_small by lia. lia.
Qed.

Lemma to_int_congruent got v :
  is_int v -> got mod 2 ^ 32 = v mod 2 ^ 32 -> C.to_int got = v.
Proof.
  intros Hv Hmod. rewrite <- (to_int_mod v Hv), <- Hmod.
  unfold C.to_int. now rewrite Zplus_mod_idemp_l.
Qed.

Lemma after_swap_ranges old reply :
  x (after_swap old reply) = x old /\ y (after_swap old reply) = y old.
Proof.
  destruct reply as [q|]; unfold after_swap; [| auto].
  destruct (_ && _); auto.
Qed.

(** The ranges [detect_axys] ends with when the inversion reply carries the
    two flags: those the calibration block leaves, each exchanged or not. *)
Lemma detected_ranges beyond old calibration swap p invert_x invert_y :
  act_type p = XA_INTEGER -> act_format p = 8 ->
  items p = [invert_x; invert_y] ->
  let read := after_calibration beyond old calibration in
  let final := detected beyond old calibration swap (Some p) in
  x final = (if C.truth invert_x then swap_min_max (x read) else x read)
  /\ y final = (if C.truth invert_y then swap_min_max (y read) else y read).
Proof.
  intros Ht Hf Hi read final. subst read final.
  unfold detected, after_inversion, nitems. rewrite Ht, Hf, Hi.
  replace ((8 =? 8) && (XA_INTEGER =? XA_INTEGER)
           && (Z.of_nat (length [invert_x; invert_y]) =? 2)) with true
    by reflexivity.
  cbn [nth x y].
  destruct (after_swap_ranges (after_calibration beyond old calibration) swap)
    as [-> ->].
  split; reflexivity.
Qed.

(** X9: a second [detect_axys] after one that found the calibration unset,
    on a server that kept what the first one sent, ends with the ranges the
    first one ended with.  The first run writes the ranges it holds on
    entry, before the inversion is folded in; when they are [int]s and the
    property then holds, with type INTEGER and format 32, items that agree
    in their low 32 bits with the elements sent, the second run reads them
    back and folds the same inversion in again. *)
Theorem detect_axys_twice_unset s s' p q sent got invert_x invert_y :
  x_property s (x_intern s "Evdev Axis Calibration") = Some p ->
  act_format p = 32 -> act_type p = XA_INTEGER -> nitems p = 0 ->
  HAVE_XI_PROP s = true ->
  x_intern s "Evdev Axis Calibration" <> None_atom ->
  (4 <= sizeof_long s)%nat ->
  is_int (min (x (old_axys s))) -> is_int (max (x (old_axys s))) ->
  is_int (min (y (old_axys s))) -> is_int (max (y (old_axys s))) ->
  reply_to "Evdev Axis Inversion" s = Some q ->
  act_type q = XA_INTEGER -> act_format q = 8 ->
  items q = [invert_x; invert_y] ->
  filter is_change (skipn (length (calls s)) (calls (snd (detect_axys s))))
  = [XChangeDeviceProperty_call (x_intern s "Evdev Axis Calibration")
       XA_INTEGER 32 sent] ->
  x_property s' (x_intern s' "Evdev Axis Calibration")
  = Some {| act_type := XA_INTEGER; act_format := 32; items := got |} ->
  map (fun v => v mod 2 ^ 32) got = sent ->
  reply_to "Evdev Axis Inversion" s' = Some q ->
  x (old_axys (snd (detect_axys s'))) = x (old_axys (snd (detect_axys s)))
  /\ y (old_axys (snd (detect_axys s'))) = y (old_axys (snd (detect_axys s))).
Proof.
  intros Hp Hf Ht Hn Hxi Hatom Hsize Hx0 Hx1 Hy0 Hy1 Hq Hqt Hqf Hqi
    Hsent Hprop Hgot Hq'.
  (* what the first run sent *)
  destruct (detect_axys_unset_calls s p Hp Hf Ht Hn Hxi Hatom Hsize)
    as (Hcalls & _).
  rewrite Hcalls, skipn_app, skipn_all, Nat.sub_diag in Hsent.
  cbn [skipn app filter is_change] in Hsent.
  injection Hsent as <-.
  destruct got as [|g0 [|g1 [|g2 [|g3 [|g4 rest]]]]]; try discriminate.
  cbn [map] in Hgot. injection Hgot as H0 H1 H2 H3.
  (* the two runs *)
  destruct (detect_axys_state s) as (l & o & e & ->).
  destruct (detect_axys_state s') as (l' & o' & e' & ->).
  cbn [snd old_axys set_orig_axys set_old_axys].
  rewrite Hq, Hq'.
  destruct (detected_ranges (heap_beyond s) (old_axys s)
              (reply_to "Evdev Axis Calibration" s)
              (reply_to "Evdev Axes Swap" s) q invert_x invert_y Hqt Hqf Hqi)
    as [-> ->].
  destruct (detected_ranges (heap_beyond s') (old_axys s')
              (reply_to "Evdev Axis Calibration" s')
              (reply_to "Evdev Axes Swap" s') q invert_x invert_y Hqt Hqf Hqi)
    as [-> ->].
  assert (Hfirst : after_calibration (heap_beyond s) (old_axys s)
                     (reply_to "Evdev Axis Calibration" s) = old_axys s).
  { unfold reply_to. rewrite Hp.
    unfold after_calibration, option_map, clip, nitems in *.
    cbn [act_format act_type items].
    destruct (items p); [| discriminate].
    rewrite Hf, Ht. reflexivity. }
  assert (Hsecond : x (after_calibration (heap_beyond s') (old_axys s')
                         (reply_to "Evdev Axis Calibration" s'))
                    = x (old_axys s)
                    /\ y (after_calibration (heap_beyond s') (old_axys s')
                            (reply_to "Evdev Axis Calibration" s'))
                       = y (old_axys s)).
  { unfold reply_to. rewrite Hprop.
    unfold after_calibration, option_map, clip, nitems.
    cbn [act_format act_type items map length].
    replace ((32 =? 32) && (XA_INTEGER =? XA_INTEGER)) with true
      by reflexivity.
    replace (32 =? 0) with false by reflexivity.
    replace (Z.to_nat (32 * 1000 / 32)) with 1000%nat by reflexivity.
    cbn [firstn length Z.of_nat Z.eqb negb andb Pos.of_succ_nat Pos.succ].
    unfold read_calibration, long_at. cbn [nth x y swap_xy].
    rewrite (to_int_congruent g0 (min (x (old_axys s)))),
      (to_int_congruent g1 (max (x (old_axys s)))),
      (to_int_congruent g2 (min (y (old_axys s)))),
      (to_int_congruent g3 (max (y (old_axys s)))) by assumption.
    destruct (old_axys s) as [[x0 x1] [y0 y1] sw]. auto. }
  destruct Hsecond as [-> ->]. rewrite Hfirst. split; reflexivity.
Qed.

Lemma detect_axys_twice_unset_witness :
  x (old_axys (snd (detect_axys
                      (session true one_touch intern_all calibration_set
                         inversion_x OUTYPE_AUTO))))
  = x (old_axys (snd (detect_axys
                        (session true one_touch intern_all calibration_unset
                           inversion_x OUTYPE_AUTO)))).
Proof.
  refine (proj1 (detect_axys_twice_unset
                   (session true one_touch intern_all calibration_unset
                      inversion_x OUTYPE_AUTO)
                   (session true one_touch intern_all calibration_set
                      inversion_x OUTYPE_AUTO)
                   calibration_unset inversion_x
                   [0; 4095; 0; 4095] [0; 4095; 0; 4095] 1 0
                   eq_refl eq_refl eq_refl eq_refl eq_refl _ _ _ _ _ _
                   eq_refl eq_refl eq_refl eq_refl eq_refl eq_refl eq_refl
                   eq_refl)).
  - discriminate.
  - simpl. lia.
  - unfold is_int. simpl. lia.
  - unfold is_int. simpl. lia.
  - unfold is_int. simpl. lia.
  - unfold is_int. simpl. lia.
Defined.

(** ** Writing the calibration and reading it back *)

Lemma last_of_three {A} (l : list A) a b c d :
  last (l ++ [a; b; c]) d = c.
Proof.
  change [a; b; c] with ([a; b] ++ [c])%list.
  now rewrite app_assoc, last_last.
Qed.

(** X10: what [set_calibration] sends is what the calibration block of
    [detect_axys] reads back.  When the four values are [int]s and the
    property later holds, with type INTEGER and format 32, items that agree
    in their low 32 bits with the elements of the request [set_calibration]
    made, the block stores those four values as the ranges held and leaves
    the swap flag alone. *)
Theorem calibration_round_trip a s s' sent got :
  HAVE_XI_PROP s = true ->
  (4 <= sizeof_long s)%nat ->
  x_intern s "Evdev Axis Calibration" <> None_atom ->
  is_int (min (x a)) -> is_int (max (x a)) ->
  is_int (min (y a)) -> is_int (max (y a)) ->
  last (calls (snd (set_calibration a s))) XSync_call
  = XChangeDeviceProperty_call (x_intern s "Evdev Axis Calibration")
      XA_INTEGER 32 sent ->
  x_property s' (x_intern s' "Evdev Axis Calibration")
  = Some {| act_type := XA_INTEGER; act_format := 32; items := got |} ->
  map (fun v => v mod 2 ^ 32) got = sent ->
  x (old_axys (snd (detect_calibration s'))) = x a
  /\ y (old_axys (snd (detect_calibration s'))) = y a
  /\ swap_xy (old_axys (snd (detect_calibration s'))) = swap_xy (old_axys s').
Proof.
  intros Hxi Hsize Hatom Hx0 Hx1 Hy0 Hy1 Hsent Hprop Hgot.
  destruct (set_calibration_values a s Hxi Hsize Hatom) as (o & Hset).
  rewrite Hset in Hsent. cbn [snd calls emits] in Hsent.
  rewrite last_of_three in Hsent. injection Hsent as <-.
  destruct got as [|g0 [|g1 [|g2 [|g3 [|g4 rest]]]]]; try discriminate.
  cbn [map] in Hgot. injection Hgot as H0 H1 H2 H3.
  destruct (detect_calibration_cases s') as (w & o' & e' & -> & _).
  cbn [snd old_axys set_old_axys].
  unfold reply_to. rewrite Hprop.
  unfold after_calibration, option_map, clip, nitems.
  cbn [act_format act_type items map length].
  replace ((32 =? 32) && (XA_INTEGER =? XA_INTEGER)) with true by reflexivity.
  replace (32 =? 0) with false by reflexivity.
  replace (Z.to_nat (32 * 1000 / 32)) with 1000%nat by reflexivity.
  cbn [firstn length Z.of_nat Z.eqb negb andb Pos.of_succ_nat Pos.succ].
  unfold read_calibration, long_at. cbn [nth x y swap_xy].
  rewrite (to_int_congruent g0 (min (x a))), (to_int_congruent g1 (max (x a))),
    (to_int_congruent g2 (min (y a))), (to_int_congruent g3 (max (y a)))
    by assumption.
  destruct a as [[x0 x1] [y0 y1] sw]. auto.
Qed.

Lemma calibration_round_trip_witness :
  x (old_axys
       (snd (detect_calibration
               (session true one_touch intern_all
                  (mkProp XA_INTEGER 32 [-5; 3900; 50; 4000])
                  inversion_off OUTYPE_AUTO))))
  = mkAxis (-5) 3900.
Proof.
  refine (proj1 (calibration_round_trip
                   (mkXY (mkAxis (-5) 3900) (mkAxis 50 4000) false)
                   touchscreen
                   (session true one_touch intern_all
                      (mkProp XA_INTEGER 32 [-5; 3900; 50; 4000])
                      inversion_off OUTYPE_AUTO)
                   [4294967291; 3900; 50; 4000]
                   [-5; 3900; 50; 4000]
                   eq_refl _ _ _ _ _ _ _ eq_refl eq_refl)).
  - simpl. lia.
  - discriminate.
  - unfold is_int. simpl. lia.
  - unfold is_int. simpl. lia.
  - unfold is_int. simpl. lia.
  - unfold is_int. simpl. lia.
  - vm_compute. reflexivity.
Defined.

(** ** [apply] after [apply] and after [detect_axys] *)

(** X11: [apply] does not take the new calibration over: the value held and
    the original are what they were, so a second [apply] of the same value
    makes the same writes again, the swap write included. *)
Theorem apply_keeps_held new_axys s :
  old_axys (snd (apply new_axys s)) = old_axys s
  /\ orig_axys (snd (apply new_axys s)) = orig_axys s
  /\ exists first second,
       calls (snd (apply new_axys s)) = (calls s ++ first)%list
       /\ calls (snd (apply new_axys (snd (apply new_axys s))))
          = (calls (snd (apply new_axys s)) ++ second)%list
       /\ filter landmark second = filter landmark first.
Proof.
  destruct (apply_effects new_axys s) as (r & l & o & e & H1 & Hl & _).
  rewrite H1. cbn [snd old_axys orig_axys emits].
  destruct (apply_effects new_axys (emits s l o e))
    as (r' & l' & o' & e' & H2 & Hl' & _).
  rewrite H2. cbn [snd calls old_axys emits] in *.
  repeat split. exists l, l'. repeat split. congruence.
Qed.

(** X12: after [detect_axys], applying the value it ends with makes no
    write to "Evdev Axes Swap": the writes are the inversion (0, 0) and the
    calibration with the ranges held, followed by the flush. *)
Theorem apply_after_detect s :
  let s1 := snd (detect_axys s) in
  exists l,
    calls (snd (apply (old_axys s1) s1)) = (calls s1 ++ l)%list
    /\ filter landmark l
       = [set_int_prop_call "Evdev Axis Inversion" 8 [0; 0];
          set_int_prop_call "Evdev Axis Calibration" 32
            [min (x (old_axys s1)); max (x (old_axys s1));
             min (y (old_axys s1)); max (y (old_axys s1))];
          XSync_call]
    /\ writes_to "Evdev Axes Swap" l = [].
Proof.
  intros s1.
  destruct (apply_effects (old_axys s1) s1) as (r & l & o & e & -> & Hl & _).
  exists l. split; [reflexivity |].
  rewrite <- writes_to_landmark, Hl. unfold apply_writes.
  rewrite Bool.eqb_reflx. split; reflexivity.
Qed.

(** ** The constructor *)

(** X13: the constructor returns normally, with device id [d], exactly when
    the display opens, [d] is the id it was given or, without one, the id
    of the only device the lookup takes for the name, that device opens,
    the build has property support and the read of "Evdev Axis Calibration"
    succeeds. *)
Theorem CalibratorEvdev_ready_iff name axys0 id type s d :
  fst (CalibratorEvdev name axys0 id type s) = Ready d
  <-> x_display s = true
      /\ (if id =? C.to_unsigned (sizeof_long s) (-1)
          then exists dev, candidates name s = [dev] /\ d = dev_id dev
          else d = id)
      /\ x_openable s d = true
      /\ HAVE_XI_PROP s = true
      /\ x_property s (x_intern s "Evdev Axis Calibration") <> None.
Proof.
  unfold CalibratorEvdev, XOpenDisplay, XOpenDevice, XCloseDisplay,
    XCloseDevice, xinput_parse_atom, XInternAtom, XGetDeviceProperty.
  run.
  destruct (x_display s); simpl.
  2: { split; [discriminate | intros (H & _); discriminate]. }
  destruct (id =? C.to_unsigned (sizeof_long s) (-1)); simpl.
  - rewrite xinput_find_device_info_effects.
    unfold candidates, lookup_id. simpl.
    destruct (filter _ (x_devices s)) as [|dev [|dev' rest]]; simpl.
    + split; [discriminate |]. intros (_ & (? & H & _) & _). discriminate.
    + destruct (x_openable s (dev_id dev)) eqn:Hopen; simpl.
      * destruct (HAVE_XI_PROP s); simpl.
        -- destruct (x_property s _) as [p|]; simpl.
           ++ split.
              ** intros H. injection H as <-. repeat split; eauto.
                 discriminate.
              ** intros (_ & (dev0 & H & ->) & _). now injection H as <-.
           ++ split; [discriminate |]. intros (_ & _ & _ & _ & H).
              congruence.
        -- split; [discriminate |]. intros (_ & _ & _ & H & _).
           discriminate.
      * split; [discriminate |].
        intros (_ & (dev0 & H & ->) & Hd & _). injection H as <-. congruence.
    + split; [discriminate |]. intros (_ & (? & H & _) & _). discriminate.
  - destruct (x_openable s id) eqn:Hopen; simpl.
    + destruct (HAVE_XI_PROP s); simpl.
      * destruct (x_property s _) as [p|]; simpl.
        -- split.
           ++ intros H. injection H as <-. repeat split; auto. discriminate.
           ++ intros (_ & -> & _). reflexivity.
        -- split; [discriminate |]. intros (_ & _ & _ & _ & H). congruence.
      * split; [discriminate |]. intros (_ & _ & _ & H & _). discriminate.
    + split; [discriminate |]. intros (_ & -> & Hd & _). congruence.
Qed.

(** X14: in a build with [HAVE_XI_PROP] the constructor holds one display
    and one device more when it returns normally, and exactly what was held
    before when it throws. *)
Theorem CalibratorEvdev_handles name axys0 id type s :
  HAVE_XI_PROP s = true ->
  let start := CalibratorEvdev name axys0 id type s in
  let held := match fst start with Ready _ => 1%nat | Throw _ => 0%nat end in
  open_displays (snd start) = (open_displays s + held)%nat
  /\ open_devices (snd start) = (open_devices s + held)%nat.
Proof.
  intros Hxi start held. subst start held.
  destruct (fst (CalibratorEvdev name axys0 id type s)) as [d | what] eqn:H.
  - destruct (CalibratorEvdev_ready_then_destroy name axys0 id type s d H)
      as (H1 & H2 & _).
    rewrite H1, H2. lia.
  - destruct (CalibratorEvdev_throw_releases name axys0 id type s what Hxi H)
      as (H1 & H2).
    rewrite H1, H2. lia.
Qed.

Lemma CalibratorEvdev_handles_witness :
  HAVE_XI_PROP touchscreen = true
  /\ let start :=
       CalibratorEvdev "Touch" full_range no_id OUTYPE_AUTO touchscreen in
     let held :=
       match fst start with Ready _ => 1%nat | Throw _ => 0%nat end in
     open_displays (snd start) = (open_displays touchscreen + held)%nat
     /\ open_devices (snd start) = (open_devices touchscreen + held)%nat.
Proof.
  split; [reflexivity |].
  apply (CalibratorEvdev_handles "Touch" full_range no_id OUTYPE_AUTO
           touchscreen).
  reflexivity.
Defined.

(** X15: after a constructor that returned normally, the destructor closes
    the device, then the display, and leaves nothing of the two open that
    was not open before the constructor. *)
Theorem CalibratorEvdev_then_destructor name axys0 id type s d :
  fst (CalibratorEvdev name axys0 id type s) = Ready d ->
  let s' := snd (CalibratorEvdev name axys0 id type s) in
  calls (snd (CalibratorEvdev_destructor s'))
  = (calls s' ++ [XCloseDevice_call; XCloseDisplay_call])%list
  /\ open_displays (snd (CalibratorEvdev_destructor s')) = open_displays s
  /\ open_devices (snd (CalibratorEvdev_destructor s')) = open_devices s.
Proof.
  intros H s'.
  destruct (CalibratorEvdev_ready_then_destroy name axys0 id type s d H)
    as (_ & _ & H1 & H2).
  split; [| split; assumption].
  unfold CalibratorEvdev_destructor, XCloseDevice, XCloseDisplay. run.
  now rewrite <- app_assoc.
Qed.

Lemma CalibratorEvdev_then_destructor_witness :
  fst (CalibratorEvdev "Touch" full_range 9 OUTYPE_AUTO touchscreen) = Ready 9
  /\ let s' :=
       snd (CalibratorEvdev "Touch" full_range 9 OUTYPE_AUTO touchscreen) in
     calls (snd (CalibratorEvdev_destructor s'))
     = (calls s' ++ [XCloseDevice_call; XCloseDisplay_call])%list
     /\ open_displays (snd (CalibratorEvdev_destructor s'))
        = open_displays touchscreen
     /\ open_devices (snd (CalibratorEvdev_destructor s'))
        = open_devices touchscreen.
Proof.
  assert (Hready : fst (CalibratorEvdev "Touch" full_range 9 OUTYPE_AUTO
                          touchscreen) = Ready 9)
    by (vm_compute; reflexivity).
  split; [exact Hready |].
  apply (CalibratorEvdev_then_destructor "Touch" full_range 9 OUTYPE_AUTO
           touchscreen 9 Hready).
Defined.

(** X16: the constructor writes no property, and it asks the server for the
    device list only when it is given no device id (and the display has
    opened). *)
Theorem CalibratorEvdev_calls name axys0 id type s :
  exists l,
    calls (snd (CalibratorEvdev name axys0 id type s)) = (calls s ++ l)%list
    /\ filter is_write l = []
    /\ filter is_change l = []
    /\ filter is_list_devices l
       = (if x_display s && (id =? C.to_unsigned (sizeof_long s) (-1))
          then [XListInputDevices_call] else []).
Proof.
  unfold CalibratorEvdev, XOpenDisplay, XOpenDevice, XCloseDisplay,
    XCloseDevice, xinput_parse_atom, XInternAtom, XGetDeviceProperty.
  run.
  destruct (x_display s); simpl.
  2: { eexists. split; [reflexivity |]. auto. }
  destruct (id =? C.to_unsigned (sizeof_long s) (-1)); simpl.
  - rewrite xinput_find_device_info_effects.
    unfold candidates, lookup_id. simpl.
    destruct (filter _ (x_devices s)) as [|dev [|dev' rest]]; simpl.
    + rewrite <- !app_assoc. eexists. split; [reflexivity |]. auto.
    + destruct (x_openable s (dev_id dev)); simpl;
        [destruct (HAVE_XI_PROP s); simpl;
         [destruct (x_property s _); simpl |] |];
        rewrite <- ?app_assoc; eexists; (split; [reflexivity |]); auto.
    + rewrite <- !app_assoc. eexists. split; [reflexivity |]. auto.
  - destruct (x_openable s id); simpl;
      [destruct (HAVE_XI_PROP s); simpl;
       [destruct (x_property s _); simpl |] |];
      rewrite <- ?app_assoc; eexists; (split; [reflexivity |]); auto.
Qed.

(** ** The device lookup in general *)

From Stdlib Require Import Permutation.

Lemma xinput_find_device_info_unique_shared name only_extended s :
  let found := xinput_find_device_info name only_extended s in
  fst found
  = match candidates_among only_extended name s with
    | [d] => Some d
    | _ => None
    end
  /\ calls (snd found) = (calls s ++ [XListInputDevices_call])%list
  /\ stderr (snd found)
     = stderr s ++ match candidates_among only_extended name s with
                   | _ :: _ :: _ => multiple_devices_warning name
                   | _ => EmptyString
                   end.
Proof.
  unfold xinput_find_device_info, XListInputDevices, candidates_among,
    lookup_id.
  run. rewrite find_loop_filter.
  destruct (filter _ (x_devices s)) as [|d [|d' rest]]; simpl;
    rewrite ?append_nil_r; auto.
Qed.

(** X17: with either value of [only_extended], the lookup makes one
    [XListInputDevices] call and returns the device exactly when one device
    of the list matches; it returns NULL when none or several match, and it
    warns on stderr exactly when several do. *)
Theorem xinput_find_device_info_unique name only_extended s :
  let found := xinput_find_device_info name only_extended s in
  fst found
  = match candidates_among only_extended name s with
    | [d] => Some d
    | _ => None
    end
  /\ calls (snd found) = (calls s ++ [XListInputDevices_call])%list
  /\ stderr (snd found)
     = stderr s ++ match candidates_among only_extended name s with
                   | _ :: _ :: _ => multiple_devices_warning name
                   | _ => EmptyString
                   end.
Proof. apply xinput_find_device_info_unique_shared. Qed.

Lemma Permutation_filter {A} (f : A -> bool) l l' :
  Permutation l l' -> Permutation (filter f l) (filter f l').
Proof.
  induction 1 as [| a l l' _ IH | a b l | l l' l'' _ IH1 _ IH2]; simpl.
  - constructor.
  - destruct (f a); [now constructor | assumption].
  - destruct (f a), (f b); try apply Permutation_refl. constructor.
  - now transitivity (filter f l').
Qed.

(** X18: the outcome of the lookup does not depend on the order in which
    the server lists the devices: the same device or NULL is returned, and
    the same text goes to stderr. *)
Theorem xinput_find_device_info_order name only_extended devices s :
  Permutation (x_devices s) devices ->
  fst (xinput_find_device_info name only_extended (with_devices devices s))
  = fst (xinput_find_device_info name only_extended s)
  /\ stderr (snd (xinput_find_device_info name only_extended
                    (with_devices devices s)))
     = stderr (snd (xinput_find_device_info name only_extended s)).
Proof.
  intros Hperm.
  destruct (xinput_find_device_info_unique_shared name only_extended s)
    as (-> & _ & ->).
  destruct (xinput_find_device_info_unique_shared name only_extended
              (with_devices devices s)) as (-> & _ & ->).
  unfold candidates_among, lookup_id.
  cbn [x_devices sizeof_long stderr with_devices].
  apply (Permutation_filter
           (device_matches only_extended (C.all_digits name)
              (if C.all_digits name
               then C.to_unsigned (sizeof_long s) (C.atoi name)
               else C.to_unsigned (sizeof_long s) (-1)) name)) in Hperm.
  destruct (filter _ (x_devices s)) as [|d [|d' rest]].
  - apply Permutation_nil in Hperm. rewrite Hperm. auto.
  - apply Permutation_length_1_inv in Hperm. rewrite Hperm. auto.
  - pose proof (Permutation_length Hperm) as Hlen.
    destruct (filter _ devices) as [|e [|e' rest']]; try discriminate. auto.
Qed.

Lemma xinput_find_device_info_order_witness :
  fst (xinput_find_device_info "Mouse" false
         (with_devices (rev two_touch)
            (session true two_touch intern_all calibration_set inversion_off
               OUTYPE_AUTO)))
  = fst (xinput_find_device_info "Mouse" false
           (session true two_touch intern_all calibration_set inversion_off
              OUTYPE_AUTO)).
Proof.
  exact (proj1 (xinput_find_device_info_order "Mouse" false (rev two_touch)
                  (session true two_touch intern_all calibration_set
                     inversion_off OUTYPE_AUTO)
                  (Permutation_rev _))).
Defined.

Lemma filter_none {A} (f : A -> bool) l :
  (forall a, In a l -> f a = false) -> filter f l = [].
Proof.
  induction l as [|a l IH]; intros H; simpl; [reflexivity |].
  rewrite (H a) by now left. apply IH. intros b Hb. apply H. now right.
Qed.

(** X19: a name made of digits only is never looked up among the device
    names: when no device has the id the digits stand for, the lookup
    returns NULL without a warning, also when a device bears that very
    name. *)
Theorem xinput_find_device_info_digits name only_extended s :
  C.all_digits name = true ->
  (forall d, In d (x_devices s) ->
             dev_id d <> C.to_unsigned (sizeof_long s) (C.atoi name)) ->
  fst (xinput_find_device_info name only_extended s) = None
  /\ stderr (snd (xinput_find_device_info name only_extended s)) = stderr s.
Proof.
  intros Hdigits Hids.
  destruct (xinput_find_device_info_unique_shared name only_extended s)
    as (-> & _ & ->).
  unfold candidates_among, lookup_id. rewrite Hdigits.
  rewrite filter_none.
  - now rewrite append_nil_r.
  - intros d Hd. unfold device_matches. cbn [negb andb orb].
    apply Hids in Hd. apply Z.eqb_neq in Hd. rewrite Hd.
    apply andb_false_r.
Qed.

Lemma xinput_find_device_info_digits_witness :
  fst (xinput_find_device_info "12" false
         (with_devices [mkDev 9 "12" 4; mkDev 10 "Mouse" 4] touchscreen))
  = None.
Proof.
  refine (proj1 (xinput_find_device_info_digits "12" false
                   (with_devices [mkDev 9 "12" 4; mkDev 10 "Mouse" 4]
                      touchscreen) eq_refl _)).
  intros d [<- | [<- | []]]; vm_compute; discriminate.
Defined.

(** ** [finish_data] by output type *)

Opaque output_xorgconfd output_hal output_xinput.

Lemma finish_data_cases new_axys s :
  exists a l o e,
    apply new_axys s = (a, emits s l o e)
    /\ finish_data new_axys s
       = match output_type s with
         | OUTYPE_AUTO =>
             if has_xorgconfd_support s
             then (a && fst (output_xorgconfd new_axys
                               (printf permanent_banner (emits s l o e))),
                   snd (output_xorgconfd new_axys
                          (printf permanent_banner (emits s l o e))))
             else (a && fst (output_xinput new_axys
                               (printf permanent_banner (emits s l o e))),
                   snd (output_xinput new_axys
                          (printf permanent_banner (emits s l o e))))
         | OUTYPE_XORGCONFD =>
             (a && fst (output_xorgconfd new_axys
                          (printf permanent_banner (emits s l o e))),
              snd (output_xorgconfd new_axys
                     (printf permanent_banner (emits s l o e))))
         | OUTYPE_HAL =>
             (a && fst (output_hal new_axys
                          (printf permanent_banner (emits s l o e))),
              snd (output_hal new_axys
                     (printf permanent_banner (emits s l o e))))
         | OUTYPE_XINPUT =>
             (a && fst (output_xinput new_axys
                          (printf permanent_banner (emits s l o e))),
              snd (output_xinput new_axys
                     (printf permanent_banner (emits s l o e))))
         | OUTYPE_OTHER =>
             (false,
              fprintf_stderr
                ("ERROR: Evdev Calibrator does not support the supplied "
                 ++ "--output-type" ++ C.nl)
                (printf permanent_banner (emits s l o e)))
         end.
Proof.
  destruct (apply_effects new_axys s) as (a & l & o & e & Ha & _).
  exists a, l, o, e. split; [exact Ha |].
  unfold finish_data. run. rewrite Ha. simpl.
  unfold has_xorgconfd_support. simpl.
  destruct (output_type s); simpl;
    [destruct (xorgconfd_support s); simpl | | | |];
    try reflexivity;
    match goal with
    | |- context [let (_, _) := ?m in _] => destruct m; reflexivity
    end.
Qed.

Transparent output_xorgconfd output_hal output_xinput.

(** X20: on an output type it has no case for, [finish_data] still runs
    [apply], prints the banner and no artifact, reports the error on stderr
    and returns false, whatever [apply] returned. *)
Theorem finish_data_unsupported new_axys s :
  supported (output_type s) = false ->
  fst (finish_data new_axys s) = false
  /\ calls (snd (finish_data new_axys s)) = calls (snd (apply new_axys s))
  /\ stdout (snd (finish_data new_axys s))
     = stdout (snd (apply new_axys s)) ++ permanent_banner
  /\ stderr (snd (finish_data new_axys s))
     = stderr (snd (apply new_axys s))
       ++ "ERROR: Evdev Calibrator does not support the supplied "
       ++ "--output-type" ++ C.nl.
Proof.
  intros Hsup.
  destruct (finish_data_cases new_axys s) as (a & l & o & e & -> & ->).
  destruct (output_type s); try discriminate.
  cbn [fst snd calls stdout stderr fprintf_stderr printf emits]. auto.
Qed.

Lemma finish_data_unsupported_witness :
  fst (apply target
         (session true one_touch intern_all calibration_set inversion_off
            OUTYPE_OTHER)) = true
  /\ fst (finish_data target
            (session true one_touch intern_all calibration_set inversion_off
               OUTYPE_OTHER)) = false.
Proof.
  split; [vm_compute; reflexivity |].
  exact (proj1 (finish_data_unsupported target
                  (session true one_touch intern_all calibration_set
                     inversion_off OUTYPE_OTHER) eq_refl)).
Defined.

(** X21: [OUTYPE_AUTO] stands for the xorg.conf.d snippet when the host
    supports it and for the xinput commands otherwise, never for the HAL
    policy: [finish_data] does what it does on [OUTYPE_XORGCONFD] or on
    [OUTYPE_XINPUT]. *)
Theorem finish_data_auto new_axys s :
  output_type s = OUTYPE_AUTO ->
  finish_data new_axys s
  = (let (a, s1) := apply new_axys s in
     let (p, s2) :=
       (if has_xorgconfd_support s then output_xorgconfd new_axys
        else output_xinput new_axys) (printf permanent_banner s1) in
     (a && p, s2)).
Proof.
  intros Hauto.
  destruct (finish_data_cases new_axys s) as (a & l & o & e & -> & ->).
  rewrite Hauto.
  destruct (has_xorgconfd_support s);
    match goal with
    | |- context [let (_, _) := ?m in _] => destruct m; reflexivity
    end.
Qed.

Lemma finish_data_auto_witness :
  finish_data target touchscreen
  = (let (a, s1) := apply target touchscreen in
     let (p, s2) := output_xorgconfd target (printf permanent_banner s1) in
     (a && p, s2)).
Proof. exact (finish_data_auto target touchscreen eq_refl). Defined.

(** X22: the persistence step only prints.  Whatever the output type,
    [finish_data] makes the calls of [apply] and no other, leaves the value
    held and the original as they were, and opens and closes nothing. *)
Theorem finish_data_keeps new_axys s :
  calls (snd (finish_data new_axys s)) = calls (snd (apply new_axys s))
  /\ old_axys (snd (finish_data new_axys s)) = old_axys s
  /\ orig_axys (snd (finish_data new_axys s)) = orig_axys s
  /\ open_displays (snd (finish_data new_axys s)) = open_displays s
  /\ open_devices (snd (finish_data new_axys s)) = open_devices s.
Proof.
  destruct (finish_data_cases new_axys s) as (a & l & o & e & -> & ->).
  destruct (output_xorgconfd_effects new_axys
              (printf permanent_banner (emits s l o e))) as (t1 & H1 & _).
  destruct (output_hal_effects new_axys
              (printf permanent_banner (emits s l o e))) as (t2 & H2 & _).
  destruct (output_xinput_effects new_axys
              (printf permanent_banner (emits s l o e))) as (t3 & H3 & _).
  rewrite H1, H2, H3.
  destruct (output_type s); [destruct (has_xorgconfd_support s) | | | |];
    cbn [fst snd calls old_axys orig_axys open_displays open_devices
         fprintf_stderr printf emits];
    rewrite ?app_nil_r; auto.
Qed.

(** ** When [apply] returns true *)

Lemma write_succeeds name format argv s :
  C.all_digits name = false -> argv <> [] ->
  format = 8 \/ format = 32 ->
  fst (xinput_do_set_int_prop name format argv s) = true
  <-> HAVE_XI_PROP s = true /\ x_intern s name <> None_atom.
Proof.
  intros Hname Hargv Hformat.
  rewrite xinput_do_set_int_prop_succeeds.
  unfold xinput_parse_atom, XInternAtom, format_used. rewrite Hname.
  cbn [fst].
  replace (format =? 0) with false
    by (destruct Hformat as [-> | ->]; reflexivity).
  split.
  - intros (H1 & _ & H2 & _). auto.
  - intros (H1 & H2). repeat split; auto.
    exists format. split; [reflexivity |]. tauto.
Qed.

Lemma set_swapxy_result v s :
  fst (set_swapxy v s) = true
  <-> HAVE_XI_PROP s = true /\ x_intern s "Evdev Axes Swap" <> None_atom.
Proof.
  unfold set_swapxy. run.
  match goal with
  | |- context [xinput_do_set_int_prop ?n ?f ?a ?st] =>
      pose proof (write_succeeds n f a st eq_refl) as H;
      destruct (xinput_do_set_int_prop n f a st) as [r st']
  end.
  simpl in *. destruct (verbose st'); simpl; apply H; auto; discriminate.
Qed.

Lemma set_calibration_result a s :
  fst (set_calibration a s) = true
  <-> HAVE_XI_PROP s = true
      /\ x_intern s "Evdev Axis Calibration" <> None_atom.
Proof.
  unfold set_calibration. run.
  match goal with
  | |- context [xinput_do_set_int_prop ?n ?f ?v ?st] =>
      pose proof (write_succeeds n f v st eq_refl) as H;
      destruct (xinput_do_set_int_prop n f v st) as [r st']
  end.
  simpl in *. destruct (verbose st'); simpl; apply H; auto; discriminate.
Qed.

(** X23: [apply] returns true exactly when the build has property support,
    the server interns "Evdev Axis Calibration" and, if the swap flag is to
    change, "Evdev Axes Swap" as well; whether it interns "Evdev Axis
    Inversion" plays no part. *)
Theorem apply_true_iff new_axys s :
  fst (apply new_axys s) = true
  <-> HAVE_XI_PROP s = true
      /\ x_intern s "Evdev Axis Calibration" <> None_atom
      /\ (swap_xy (old_axys s) = swap_xy new_axys
          \/ x_intern s "Evdev Axes Swap" <> None_atom).
Proof.
  rewrite apply_returns. cbv zeta.
  destruct (Bool.eqb_spec (swap_xy (old_axys s)) (swap_xy new_axys))
    as [Esw | Nsw].
  - cbn [fst snd andb].
    destruct (set_invert_xy_effects 0 0
                (printf (C.nl ++ "Doing dynamic recalibration:" ++ C.nl) s))
      as (ri & xi & oi & ei & -> & _).
    cbn [snd]. rewrite set_calibration_result. cbn [HAVE_XI_PROP x_intern
      emits printf]. tauto.
  - destruct (set_swapxy_effects (Z.b2z (swap_xy new_axys))
                (printf (C.nl ++ "Doing dynamic recalibration:" ++ C.nl) s))
      as (rs & xs & os & es & Hs & _).
    pose proof (set_swapxy_result (Z.b2z (swap_xy new_axys))
                  (printf (C.nl ++ "Doing dynamic recalibration:" ++ C.nl) s))
      as Hr.
    rewrite Hs in *. cbn [fst snd] in *.
    destruct (set_invert_xy_effects 0 0
                (emits
                   (printf (C.nl ++ "Doing dynamic recalibration:" ++ C.nl) s)
                   (set_int_prop_call "Evdev Axes Swap" 8
                      [Z.b2z (swap_xy new_axys)] :: xs) os es))
      as (ri & xi & oi & ei & -> & _).
    cbn [snd]. rewrite andb_true_iff, set_calibration_result, Hr.
    cbn [HAVE_XI_PROP x_intern emits printf]. tauto.
Qed.

(** ** What [detect_axys] depends on *)

(** A reply the calibration block stays inside of is read the same way
    whatever lies behind it. *)
Lemma after_calibration_within beyond beyond' old reply :
  reads_within reply = true ->
  after_calibration beyond old reply = after_calibration beyond' old reply.
Proof.
  destruct reply as [p|]; [| reflexivity].
  unfold reads_within, after_calibration, nitems.
  destruct ((act_format p =? 32) && (act_type p =? XA_INTEGER));
    [| reflexivity].
  destruct (items p) as [|a [|b [|c [|d rest]]]]; try reflexivity;
    intros H; vm_compute in H; discriminate.
Qed.

(** X24: when the calibration reply is one the block stays inside of (the
    block is not entered, or the reply has no item or at least four), the
    value [detect_axys] ends with is fixed by the value held before and by
    the replies to its three reads: two sessions that agree on these end
    with the same value, whatever the build, the verbosity, the memory
    behind the reply or the fate of the corrective write. *)
Theorem detect_axys_depends_on_replies s s' :
  reads_within (reply_to "Evdev Axis Calibration" s) = true ->
  old_axys s = old_axys s' ->
  reply_to "Evdev Axis Calibration" s = reply_to "Evdev Axis Calibration" s' ->
  reply_to "Evdev Axes Swap" s = reply_to "Evdev Axes Swap" s' ->
  reply_to "Evdev Axis Inversion" s = reply_to "Evdev Axis Inversion" s' ->
  old_axys (snd (detect_axys s)) = old_axys (snd (detect_axys s'))
  /\ orig_axys (snd (detect_axys s)) = orig_axys (snd (detect_axys s')).
Proof.
  intros Hwithin Hold Hc Hs Hi.
  destruct (detect_axys_state s) as (l & o & e & ->).
  destruct (detect_axys_state s') as (l' & o' & e' & ->).
  cbn [snd old_axys orig_axys set_orig_axys set_old_axys emits].
  unfold detected.
  rewrite (after_calibration_within (heap_beyond s) (heap_beyond s')
             (old_axys s) _ Hwithin).
  now rewrite Hold, Hc, Hs, Hi.
Qed.

Lemma detect_axys_depends_on_replies_witness :
  old_axys (snd (detect_axys
                   (session true one_touch intern_all calibration_unset
                      inversion_x OUTYPE_AUTO)))
  = old_axys (snd (detect_axys
                     (session false one_touch intern_all calibration_unset
                        inversion_x OUTYPE_HAL))).
Proof.
  exact (proj1 (detect_axys_depends_on_replies
                  (session true one_touch intern_all calibration_unset
                     inversion_x OUTYPE_AUTO)
                  (session false one_touch intern_all calibration_unset
                     inversion_x OUTYPE_HAL)
                  eq_refl eq_refl eq_refl eq_refl eq_refl)).
Defined.
